(** * mcp-edd: the Easy Digital Downloads client and its tool handlers

    A shallow embedding of [src/edd-client.ts] (class [EDDClient]) and of
    the two alternate-key handlers of [src/index.ts], with the properties
    the specification states about them.

    Conventions of the embedding:
    - a JavaScript value is a [JsValue]; an object decoded from JSON is a
      finite map from property names to values, an array is a list;
    - [async] methods are computations in the monad [M]: they read the
      answers of the network, log every [fetch] and every timer in the
      [World], and complete by returning a value or by throwing;
    - numbers that the client turns into text (identifiers, counts, page
      numbers, HTTP status codes) are integers, printed in decimal as
      [String(n)] prints every integer below 1e21 in magnitude. *)

From Stdlib Require Import ZArith QArith String Ascii List DecimalString.
From stdpp Require Import gmap strings list fin_maps.

Open Scope string_scope.
Open Scope Z_scope.

(* ===================================================================== *)
(** * JavaScript values *)
(* ===================================================================== *)

Module Js.

#[warnings="-register-all"] Inductive JsValue : Type :=
| JUndefined
| JNull
| JBool (b : bool)
| JNum (q : Q)
| JStr (s : string)
| JArr (l : list JsValue)
| JObj (m : gmap string JsValue).

(** An [Error] object: what [throw new Error(msg)] creates, and what the
    engine creates for a [TypeError]; [name] tells them apart and both are
    [instanceof Error]. *)
Record JsError := mkError { name : string; message : string }.

Definition Error (msg : string) : JsError := mkError "Error" msg.
Definition TypeError (msg : string) : JsError := mkError "TypeError" msg.

(** Anything can be thrown: an [Error] object or any other value. *)
Inductive Thrown :=
| ThrownError (e : JsError)
| ThrownValue (v : JsValue).

(** The built-ins of the host that the client calls and does not define:
    the text of a number of a decoded body, and
    [JSON.stringify(v, null, 2)]. *)
Class JsRuntime := {
  Number_toString : Q -> string;
  JSON_stringify : JsValue -> string
}.

(** [String(n)] for an integer. *)
Definition Z_toString (z : Z) : string := NilZero.string_of_int (Z.to_int z).

(** ToBoolean: [undefined], [null], [false], [0] and the empty string are
    falsy (a decoded body holds no [NaN]); arrays and objects are truthy. *)
Definition truthy (v : JsValue) : bool :=
  match v with
  | JUndefined | JNull => false
  | JBool b => b
  | JNum q => negb (Qnum q =? 0)
  | JStr s => negb (String.eqb s "")
  | JArr _ | JObj _ => true
  end.

Definition join (sep : string) (l : list string) : string :=
  match l with
  | [] => ""
  | s :: rest => fold_left (fun acc x => acc +:+ sep +:+ x) rest s
  end.

Section ToString.
Context `{JsRuntime}.

(** [String(v)], also the coercion of a template literal. An array
    prints its elements separated by commas, [null] and [undefined]
    elements as nothing. *)
Fixpoint js_String (v : JsValue) : string :=
  match v with
  | JUndefined => "undefined"
  | JNull => "null"
  | JBool true => "true"
  | JBool false => "false"
  | JNum q => Number_toString q
  | JStr s => s
  | JArr l =>
      join "," (map (fun x => match x with
                              | JUndefined | JNull => ""
                              | _ => js_String x
                              end) l)
  | JObj _ => "[object Object]"
  end.
End ToString.

(** [v.k] for a property name [k] that is neither an array index nor a
    built-in of a prototype ([error], [sales], [products], ...): a lookup
    in an object, [undefined] on any other value, and a [TypeError] on
    [null] and [undefined]. *)
Definition js_get (v : JsValue) (k : string) : JsError + JsValue :=
  match v with
  | JUndefined =>
      inl (TypeError ("Cannot read properties of undefined (reading '" +:+ k +:+ "')"))
  | JNull =>
      inl (TypeError ("Cannot read properties of null (reading '" +:+ k +:+ "')"))
  | JObj m => inr (default JUndefined (m !! k))
  | _ => inr JUndefined
  end.

(** [k in v]: only objects (and arrays, which own no such [k]) have
    properties; on any other value [in] throws a [TypeError]. The message
    of the engine ends with the operand; here it ends with a fixed word,
    and no statement below depends on the message. *)
Definition js_in (k : string) (v : JsValue) : JsError + bool :=
  match v with
  | JObj m => inr (bool_decide (is_Some (m !! k)))
  | JArr _ => inr false
  | _ =>
      inl (TypeError ("Cannot use 'in' operator to search for '" +:+ k +:+ "' in value"))
  end.

(** [v[0]]. *)
Definition js_first (v : JsValue) : JsError + JsValue :=
  match v with
  | JUndefined =>
      inl (TypeError "Cannot read properties of undefined (reading '0')")
  | JNull =>
      inl (TypeError "Cannot read properties of null (reading '0')")
  | JArr l => inr (default JUndefined (head l))
  | JObj m => inr (default JUndefined (m !! "0"))
  | JStr (String c _) => inr (JStr (String c ""))
  | _ => inr JUndefined
  end.

(** [v?.[0]]. *)
Definition js_first_opt (v : JsValue) : JsError + JsValue :=
  match v with
  | JUndefined | JNull => inr JUndefined
  | _ => js_first v
  end.

(** [a || b] on values. *)
Definition js_or (a b : JsValue) : JsValue := if truthy a then a else b.

End Js.
Export Js.

(* ===================================================================== *)
(** * URLs and their query parameters *)
(* ===================================================================== *)

Module Url.

(** A [URL] object: its text up to the query, and the list behind
    [url.searchParams]. *)
Record URL := mkURL {
  location : string;
  searchParams : list (string * string)
}.

(** [new URL(endpoint, base)] for a relative path [endpoint] (the six
    endpoints are [products/], [sales/], ...) and a [base] that is an
    absolute URL as the URL parser prints it (lower-case scheme and host,
    no default port), whose path ends in a slash and which has no query
    or fragment, like [https://example.com/edd-api/]: the path is appended
    and the query is empty. For another base the text differs, or the
    constructor throws; the query is empty all the same, and the
    statements below are about the query. *)
Definition new_URL (endpoint base : string) : URL :=
  mkURL (base +:+ endpoint) [].

Definition has_name (name : string) (p : string * string) : bool :=
  String.eqb (fst p) name.

(** [URLSearchParams.set(name, value)]: the first pair called [name]
    takes the value and the other pairs called [name] are removed; with no
    such pair, the pair is appended. *)
Fixpoint set (name value : string) (l : list (string * string))
  : list (string * string) :=
  match l with
  | [] => [(name, value)]
  | p :: rest =>
      if has_name name p
      then (name, value) :: List.filter (fun p' => negb (has_name name p')) rest
      else p :: set name value rest
  end.

(** [URLSearchParams.get(name)]: the value of the first pair called
    [name]. *)
Fixpoint get (name : string) (l : list (string * string)) : option string :=
  match l with
  | [] => None
  | p :: rest => if has_name name p then Some (snd p) else get name rest
  end.

Definition searchParams_set (name value : string) (u : URL) : URL :=
  mkURL (location u) (set name value (searchParams u)).

(** The application/x-www-form-urlencoded serializer, over the bytes of
    the text: letters, digits and [*-._] stay, a space becomes [+], every
    other byte becomes [%XX]. *)
Definition stays (c : ascii) : bool :=
  let n := N_of_ascii c in
  (((48 <=? n) && (n <=? 57)) || ((65 <=? n) && (n <=? 90))
   || ((97 <=? n) && (n <=? 122))
   || (n =? 42) || (n =? 45) || (n =? 46) || (n =? 95))%N.

Definition hex_digit (n : N) : ascii :=
  ascii_of_N (if (n <? 10)%N then 48 + n else 55 + n)%N.

Fixpoint urlencode (s : string) : string :=
  match s with
  | EmptyString => EmptyString
  | String c rest =>
      if stays c then String c (urlencode rest)
      else if Ascii.eqb c " " then String "+" (urlencode rest)
      else String "%" (String (hex_digit (N_of_ascii c / 16))
                         (String (hex_digit (N_of_ascii c mod 16))
                            (urlencode rest)))
  end.

Definition serialize (l : list (string * string)) : string :=
  join "&" (map (fun p => urlencode (fst p) +:+ "=" +:+ urlencode (snd p)) l).

(** [url.toString()]. *)
Definition toString (u : URL) : string :=
  match searchParams u with
  | [] => location u
  | l => location u +:+ "?" +:+ serialize l
  end.

End Url.

(* ===================================================================== *)
(** * The world of a request: network, calls and timers *)
(* ===================================================================== *)

(** The [Response] that [fetch] resolves to. [json] is what
    [response.json()] settles to: the decoded body, or what it rejects
    with on a body that is not JSON. *)
Record Response := mkResponse {
  status : Z;
  statusText : string;
  json : Thrown + JsValue
}.

(** [response.ok]: the status is in the range 200-299. *)
Definition ok (r : Response) : bool :=
  (200 <=? status r) && (status r <=? 299).

Inductive FetchOutcome :=
| Rejected (t : Thrown)
| Resolved (r : Response).

(** What the client does to the world, in the order in which it does it:
    a call of [fetch] for a URL, and a [setTimeout] awaited for a delay in
    milliseconds. *)
Inductive Event :=
| Fetched (url : string)
| Waited (ms : Z).

(** The network answers the [n]-th call of [fetch] (counted from 0) for a
    URL; [calls] logs the URL of every call made, [timers] the delay of
    every timer awaited, and [events] both in the order in which they
    happened. *)
Record World := mkWorld {
  network : nat -> string -> FetchOutcome;
  calls : list string;
  timers : list Z;
  events : list Event
}.

Inductive Completion (A : Type) :=
| Return (a : A)
| Throw (t : Thrown).
Arguments Return {A} a.
Arguments Throw {A} t.

Definition M (A : Type) : Type := World -> Completion A * World.

Definition ret {A} (a : A) : M A := fun w => (Return a, w).

Definition throw {A} (e : JsError) : M A := fun w => (Throw (ThrownError e), w).

Definition bind {A B} (m : M A) (k : A -> M B) : M B :=
  fun w =>
    match m w with
    | (Return a, w') => k a w'
    | (Throw t, w') => (Throw t, w')
    end.

(** [try { m } catch (error) { ... }]: the completion of [m] as a value. *)
Definition try_catch {A} (m : M A) : M (Thrown + A) :=
  fun w =>
    match m w with
    | (Return a, w') => (Return (inr a), w')
    | (Throw t, w') => (Return (inl t), w')
    end.

(** An operation that throws an [Error] object or gives a value. *)
Definition lift {A} (r : JsError + A) : M A :=
  match r with
  | inl e => throw e
  | inr a => ret a
  end.

Declare Scope js_scope.
Delimit Scope js_scope with js.
Notation "x <- c1 ;; c2" := (bind c1 (fun x => c2))
  (at level 100, c1 at next level, right associativity) : js_scope.
Notation "c1 ;; c2" := (bind c1 (fun _ => c2))
  (at level 100, right associativity) : js_scope.
Open Scope js_scope.

(** The world after one more call, and after one more timer. *)
Definition called (url : string) (w : World) : World :=
  mkWorld (network w) (calls w ++ [url]) (timers w) (events w ++ [Fetched url]).

Definition slept (ms : Z) (w : World) : World :=
  mkWorld (network w) (calls w) (timers w ++ [ms]) (events w ++ [Waited ms]).

(** [await fetch(url, { method: 'GET', headers: { Accept: ... } })]. *)
Definition fetch (url : string) : M Response :=
  fun w =>
    match network w (length (calls w)) url with
    | Rejected t => (Throw t, called url w)
    | Resolved r => (Return r, called url w)
    end.

(** [await new Promise((resolve) => setTimeout(resolve, ms))]. *)
Definition sleep (ms : Z) : M unit :=
  fun w => (Return tt, slept ms w).

(** [await response.json()]. *)
Definition response_json (r : Response) : M JsValue :=
  fun w =>
    match json r with
    | inl t => (Throw t, w)
    | inr data => (Return data, w)
    end.

(* ===================================================================== *)
(** * The client: [class EDDClient] of [src/edd-client.ts] *)
(* ===================================================================== *)

Record EDDClientConfig := mkConfig {
  apiUrl : string;
  apiKey : string;
  apiToken : string
}.

(** A value of a parameter map, [string | number | undefined]. *)
Inductive ParamValue :=
| PStr (s : string)
| PNum (n : Z)
| PUndefined.

(** A parameter map, as [Object.entries(params)] enumerates it: the names
    of a JavaScript object are distinct. *)
Definition Params := list (string * ParamValue).

(** [String(value)]. *)
Definition String_ (value : ParamValue) : string :=
  match value with
  | PStr s => s
  | PNum n => Z_toString n
  | PUndefined => "undefined"
  end.

Definition opt_num (o : option Z) : ParamValue :=
  match o with Some n => PNum n | None => PUndefined end.

Definition opt_str (o : option string) : ParamValue :=
  match o with Some s => PStr s | None => PUndefined end.

(** The option objects of the list methods; a field left out and a field
    holding [undefined] are both [None]. The entries are in the order in
    which the handlers of [src/index.ts] write the fields of these objects;
    [Object.entries] follows the order of whoever builds the object. *)
Record ProductsOptions := { p_number : option Z; p_product : option Z }.
Record SalesOptions := {
  s_number : option Z;
  s_page : option Z;
  s_email : option string;
  s_startdate : option string;
  s_enddate : option string
}.
Record PageOptions := { g_number : option Z; g_page : option Z }.
Record DiscountsOptions := { d_number : option Z }.
Record LogsOptions := {
  l_number : option Z;
  l_product : option Z;
  l_customer : option Z
}.

Definition products_entries (o : ProductsOptions) : Params :=
  [("number", opt_num (p_number o)); ("product", opt_num (p_product o))].
Definition sales_entries (o : SalesOptions) : Params :=
  [("number", opt_num (s_number o)); ("page", opt_num (s_page o));
   ("email", opt_str (s_email o)); ("startdate", opt_str (s_startdate o));
   ("enddate", opt_str (s_enddate o))].
Definition page_entries (o : PageOptions) : Params :=
  [("number", opt_num (g_number o)); ("page", opt_num (g_page o))].
Definition discounts_entries (o : DiscountsOptions) : Params :=
  [("number", opt_num (d_number o))].
Definition logs_entries (o : LogsOptions) : Params :=
  [("number", opt_num (l_number o)); ("product", opt_num (l_product o));
   ("customer", opt_num (l_customer o))].

(** [type: 'sales' | 'earnings']. *)
Inductive StatsType := sales | earnings.

Definition type_name (t : StatsType) : string :=
  match t with sales => "sales" | earnings => "earnings" end.

(** [retries = 3]. *)
Definition default_retries : Z := 3.

(** [for (const [key, value] of Object.entries(params))
       if (value !== undefined) url.searchParams.set(key, String(value))]. *)
Definition set_entry (url : Url.URL) (entry : string * ParamValue) : Url.URL :=
  match snd entry with
  | PUndefined => url
  | value => Url.searchParams_set (fst entry) (String_ value) url
  end.

Definition set_entries (params : Params) (url : Url.URL) : Url.URL :=
  fold_left set_entry params url.

(** [error instanceof Error ? error : new Error(String(error))]. *)
Definition as_Error `{JsRuntime} (t : Thrown) : JsError :=
  match t with
  | ThrownError e => e
  | ThrownValue v => Error (js_String v)
  end.

(** [Math.pow(2, attempt - 1) * 1000]. *)
Definition backoff (attempt : Z) : Z := 2 ^ (attempt - 1) * 1000.

Section EDDClient.
Context `{JsRuntime}.
Variable this : EDDClientConfig.

(** The [URL] object of [buildUrl] before [url.toString()]. *)
Definition buildUrl_object (endpoint : string) (params : Params) : Url.URL :=
  let url := Url.new_URL endpoint (apiUrl this) in
  let url := Url.searchParams_set "key" (apiKey this) url in
  let url := Url.searchParams_set "token" (apiToken this) url in
  set_entries params url.

Definition buildUrl (endpoint : string) (params : Params) : string :=
  Url.toString (buildUrl_object endpoint params).

(** The [URL] object of [buildPublicUrl] before [url.toString()]. *)
Definition buildPublicUrl_object (endpoint : string) (params : Params)
  : Url.URL :=
  let url := Url.new_URL endpoint (apiUrl this) in
  set_entries params url.

Definition buildPublicUrl (endpoint : string) (params : Params) : string :=
  Url.toString (buildPublicUrl_object endpoint params).

(** The body of the [try] block of [request]: one attempt. *)
Definition attempt_once (url : string) : M JsValue :=
  response <- fetch url ;;
  if negb (ok response)
  then throw (Error ("HTTP " +:+ Z_toString (status response) +:+ ": "
                     +:+ statusText response))
  else
    data <- response_json response ;;
    data_error <- lift (js_get data "error") ;;
    if truthy data_error
    then throw (Error ("EDD API Error: " +:+ js_String data_error))
    else ret data.

(** The [for] loop of [request], by the number of iterations that
    remain; [attempt] counts from 1 and the loop runs while
    [attempt <= retries]. After the loop,
    [throw lastError || new Error('Request failed after retries')]. *)
Fixpoint request_loop (url : string) (retries : Z) (remaining : nat)
    (attempt : Z) (lastError : option JsError) : M JsValue :=
  match remaining with
  | O =>
      throw (match lastError with
             | Some e => e
             | None => Error "Request failed after retries"
             end)
  | S remaining' =>
      r <- try_catch (attempt_once url) ;;
      match r with
      | inr data => ret data
      | inl error =>
          (if attempt <? retries then sleep (backoff attempt) else ret tt) ;;
          request_loop url retries remaining' (attempt + 1)
            (Some (as_Error error))
      end
  end.

Definition request (url : string) (retries : Z) : M JsValue :=
  request_loop url retries (Z.to_nat retries) 1 None.

(** ** Products (public) *)

Definition listProducts (options : ProductsOptions) : M JsValue :=
  let url := buildPublicUrl "products/" (products_entries options) in
  response <- request url default_retries ;;
  lift (js_get response "products").

Definition getProduct (productId : Z) : M JsValue :=
  products <- listProducts {| p_number := None; p_product := Some productId |} ;;
  first <- lift (js_first products) ;;
  ret (js_or first JNull).

(** ** Sales *)

Definition listSales (options : SalesOptions) : M JsValue :=
  let url := buildUrl "sales/" (sales_entries options) in
  response <- request url default_retries ;;
  found <- lift (js_get response "sales") ;;
  ret (js_or found (JArr [])).

Definition getSaleById (saleId : Z) : M JsValue :=
  let url := buildUrl "sales/" [("id", PNum saleId)] in
  response <- request url default_retries ;;
  found <- lift (js_get response "sales") ;;
  first <- lift (js_first_opt found) ;;
  ret (js_or first JNull).

Definition getSaleByKey (purchaseKey : string) : M JsValue :=
  let url := buildUrl "sales/" [("key", PStr purchaseKey)] in
  response <- request url default_retries ;;
  found <- lift (js_get response "sales") ;;
  first <- lift (js_first_opt found) ;;
  ret (js_or first JNull).

(** [this.listSales({ ...options, email })]. *)
Definition searchSalesByEmail (email : string) (options : PageOptions)
  : M JsValue :=
  listSales {| s_number := g_number options; s_page := g_page options;
               s_email := Some email; s_startdate := None;
               s_enddate := None |}.

(** ** Customers *)

Definition listCustomers (options : PageOptions) : M JsValue :=
  let url := buildUrl "customers/" (page_entries options) in
  response <- request url default_retries ;;
  found <- lift (js_get response "customers") ;;
  ret (js_or found (JArr [])).

Definition getCustomerById (customerId : Z) : M JsValue :=
  let url := buildUrl "customers/" [("customer", PNum customerId)] in
  response <- request url default_retries ;;
  found <- lift (js_get response "customers") ;;
  first <- lift (js_first_opt found) ;;
  ret (js_or first JNull).

Definition getCustomerByEmail (email : string) : M JsValue :=
  let url := buildUrl "customers/" [("email", PStr email)] in
  response <- request url default_retries ;;
  found <- lift (js_get response "customers") ;;
  first <- lift (js_first_opt found) ;;
  ret (js_or first JNull).

(** ** Stats *)

(** [if ('stats' in response && response.stats) return response.stats;
    return { [type]: response[type] }]. *)
Definition normalize_stats (type : StatsType) (response : JsValue)
  : M JsValue :=
  present <- lift (js_in "stats" response) ;;
  wrapped <- (if present : bool then lift (js_get response "stats")
              else ret (JBool false)) ;;
  if truthy wrapped
  then lift (js_get response "stats")
  else
    direct <- lift (js_get response (type_name type)) ;;
    ret (JObj {[ type_name type := direct ]}).

Definition getStats (type : StatsType) : M JsValue :=
  let url := buildUrl "stats/" [("type", PStr (type_name type))] in
  response <- request url default_retries ;;
  normalize_stats type response.

(** The own properties that a rest pattern copies from a value that is
    not an object: the elements of an array and the characters of a
    string under their indices, nothing from a number or a boolean. *)
Definition indexed (l : list JsValue) : gmap string JsValue :=
  list_to_map (imap (fun i x => (Z_toString (Z.of_nat i), x)) l).

Fixpoint characters (s : string) : list JsValue :=
  match s with
  | EmptyString => []
  | String c rest => JStr (String c "") :: characters rest
  end.

(** [const { request_speed: _speed, totals: _totals, ...dateData } =
    response]. *)
Definition without_meta (response : JsValue) : JsError + JsValue :=
  let rest (m : gmap string JsValue) :=
    JObj (delete "request_speed" (delete "totals" m)) in
  match response with
  | JUndefined =>
      inl (TypeError "Cannot destructure 'response' as it is undefined.")
  | JNull => inl (TypeError "Cannot destructure 'response' as it is null.")
  | JObj m => inr (rest m)
  | JArr l => inr (rest (indexed l))
  | JStr s => inr (rest (indexed (characters s)))
  | JBool _ | JNum _ => inr (rest ∅)
  end.

Definition getStatsByDateRange (type : StatsType) (startDate endDate : string)
  : M JsValue :=
  let url := buildUrl "stats/"
               [("type", PStr (type_name type)); ("date", PStr "range");
                ("startdate", PStr startDate); ("enddate", PStr endDate)] in
  response <- request url default_retries ;;
  lift (without_meta response).

(** The URL of [getStatsByProduct]: [product: productId ?? 'all']. *)
Definition getStatsByProduct_url (type : StatsType) (productId : option Z)
  : string :=
  buildUrl "stats/"
    [("type", PStr (type_name type));
     ("product", match productId with
                 | Some n => PNum n
                 | None => PStr "all"
                 end)].

(** ** Discounts *)

Definition listDiscounts (options : DiscountsOptions) : M JsValue :=
  let url := buildUrl "discounts/" (discounts_entries options) in
  response <- request url default_retries ;;
  found <- lift (js_get response "discounts") ;;
  ret (js_or found (JArr [])).

Definition getDiscount (discountId : Z) : M JsValue :=
  let url := buildUrl "discounts/" [("discount", PNum discountId)] in
  response <- request url default_retries ;;
  found <- lift (js_get response "discounts") ;;
  first <- lift (js_first_opt found) ;;
  ret (js_or first JNull).

(** ** Download logs *)

Definition getDownloadLogs (options : LogsOptions) : M JsValue :=
  let url := buildUrl "file-download-logs/" (logs_entries options) in
  response <- request url default_retries ;;
  found <- lift (js_get response "download_logs") ;;
  ret (js_or found (JArr [])).

End EDDClient.

(* ===================================================================== *)
(** * The handlers of [src/index.ts] that look up by alternate keys *)
(* ===================================================================== *)

Record Content := mkContent { c_type : string; c_text : string }.
Record ToolResult := mkResult { content : list Content }.

(** [{ content: [{ type: 'text', text }] }]. *)
Definition text_result (text : string) : ToolResult :=
  mkResult [mkContent "text" text].

(** Truthiness of an optional number and of an optional string. *)
Definition given_num (o : option Z) : bool :=
  match o with Some n => negb (n =? 0) | None => false end.

Definition given_str (o : option string) : bool :=
  match o with Some s => negb (String.eqb s "") | None => false end.

Section Handlers.
Context `{JsRuntime}.
Variable edd : EDDClientConfig.

(** Tool [edd_get_sale]. Past the guard a falsy [saleId] leaves a
    non-empty [purchaseKey], which [purchaseKey!] then is. *)
Definition edd_get_sale (saleId : option Z) (purchaseKey : option string)
  : M ToolResult :=
  if negb (given_num saleId) && negb (given_str purchaseKey)
  then ret (text_result "Error: Either saleId or purchaseKey is required")
  else
    sale <- (if given_num saleId
             then getSaleById edd (default 0 saleId)
             else getSaleByKey edd (default "" purchaseKey)) ;;
    if negb (truthy sale)
    then ret (text_result "Sale not found")
    else ret (text_result (JSON_stringify sale)).

(** Tool [edd_get_customer]. *)
Definition edd_get_customer (customerId : option Z) (email : option string)
  : M ToolResult :=
  if negb (given_num customerId) && negb (given_str email)
  then ret (text_result "Error: Either customerId or email is required")
  else
    customer <- (if given_num customerId
                 then getCustomerById edd (default 0 customerId)
                 else getCustomerByEmail edd (default "" email)) ;;
    if negb (truthy customer)
    then ret (text_result "Customer not found")
    else ret (text_result (JSON_stringify customer)).
End Handlers.

(** A runtime to run the examples with: it prints the integers, and no
    example prints a fraction or a whole value. *)
Definition sample_runtime : JsRuntime :=
  {| Number_toString q := Z_toString (Qnum q / Z.pos (Qden q));
     JSON_stringify _ := "" |}.

(** The configuration of the unit tests. *)
Definition test_config : EDDClientConfig :=
  mkConfig "https://example.com/edd-api/" "test-key" "test-token".

(** A world in which nothing has happened yet. *)
Definition fresh (net : nat -> string -> FetchOutcome) : World :=
  mkWorld net [] [] [].

(** A network that answers every call with the same outcome. *)
Definition always (o : FetchOutcome) : nat -> string -> FetchOutcome :=
  fun _ _ => o.

(** A network that rejects its first [k] calls and then answers [o]. *)
Definition fails_then (k : nat) (o : FetchOutcome)
  : nat -> string -> FetchOutcome :=
  fun n _ =>
    if (n <? k)%nat then Rejected (ThrownError (Error "Network error")) else o.

(** [{ ok: true, json: async () => body }]. *)
Definition ok_json (body : JsValue) : FetchOutcome :=
  Resolved (mkResponse 200 "OK" (inr body)).

(** The flat date-range response of the unit tests, and the mapping
    expected from it. *)
Definition range_response : gmap string JsValue :=
  {[ "2025-01-01" := JNum 100; "2025-01-02" := JNum 150;
     "2025-01-03" := JNum 200; "request_speed" := JNum (1 # 100);
     "totals" := JNum 450 ]}.

Definition range_dates : gmap string JsValue :=
  {[ "2025-01-01" := JNum 100; "2025-01-02" := JNum 150;
     "2025-01-03" := JNum 200 ]}.

(** The text that a parameter map gives the query parameter [name]: the
    one of its last entry called [name] whose value is defined. *)
Fixpoint assigned (name : string) (params : Params) : option string :=
  match params with
  | [] => None
  | entry :: rest =>
      match assigned name rest with
      | Some text => Some text
      | None =>
          match snd entry with
          | PUndefined => None
          | value =>
              if String.eqb (fst entry) name then Some (String_ value)
              else None
          end
      end
  end.

(** [value !== undefined]. *)
Definition defined (entry : string * ParamValue) : bool :=
  match snd entry with
  | PUndefined => false
  | _ => true
  end.

(* ===================================================================== *)
(** * The rest of the client, of the handlers, and the environment *)
(* ===================================================================== *)

(** ** [getStatsByProduct] *)

(** [{ name: string; value: number }]. *)
Record ProductStat := mkStat { stat_name : string; stat_value : Q }.

(** [for (const [key, value] of Object.entries(response))
       if (key !== 'request_speed' && typeof value === 'number')
         results.push({ name: key, value })]. *)
Fixpoint product_stats (entries : list (string * JsValue)) : list ProductStat :=
  match entries with
  | [] => []
  | entry :: rest =>
      match snd entry with
      | JNum value =>
          if negb (String.eqb (fst entry) "request_speed")
          then mkStat (fst entry) value :: product_stats rest
          else product_stats rest
      | _ => product_stats rest
      end
  end.

Section StatsByProduct.
Context `{JsRuntime}.

(** The order in which the engine enumerates the own properties of an
    object; a finite map does not record it. *)
Variable own_entries : gmap string JsValue -> list (string * JsValue).

(** [Object.entries(v)]. *)
Definition Object_entries (v : JsValue)
  : JsError + list (string * JsValue) :=
  match v with
  | JUndefined | JNull =>
      inl (TypeError "Cannot convert undefined or null to object")
  | JObj m => inr (own_entries m)
  | JArr l => inr (imap (fun i x => (Z_toString (Z.of_nat i), x)) l)
  | JStr s =>
      inr (imap (fun i x => (Z_toString (Z.of_nat i), x)) (characters s))
  | JBool _ | JNum _ => inr []
  end.

Definition getStatsByProduct (this : EDDClientConfig) (type : StatsType)
    (productId : option Z) : M (list ProductStat) :=
  let url := getStatsByProduct_url this type productId in
  response <- request url default_retries ;;
  entries <- lift (Object_entries response) ;;
  ret (product_stats entries).
End StatsByProduct.

(** ** The handlers [edd_get_product] and [edd_get_discount] *)

Section LookupHandlers.
Context `{JsRuntime}.
Variable edd : EDDClientConfig.

Definition edd_get_product (productId : Z) : M ToolResult :=
  product <- getProduct edd productId ;;
  if negb (truthy product)
  then ret (text_result ("Product " +:+ Z_toString productId +:+ " not found"))
  else ret (text_result (JSON_stringify product)).

Definition edd_get_discount (discountId : Z) : M ToolResult :=
  discount <- getDiscount edd discountId ;;
  if negb (truthy discount)
  then ret (text_result ("Discount " +:+ Z_toString discountId +:+ " not found"))
  else ret (text_result (JSON_stringify discount)).
End LookupHandlers.

(** ** [validateEnv] of [src/env.ts] *)

(** The line feed of the message. *)
Definition newline : string := String (ascii_of_nat 10) "".

(** [s.endsWith(suffix)]. *)
Fixpoint endsWith (s suffix : string) : bool :=
  String.eqb s suffix
  || match s with
     | EmptyString => false
     | String _ rest => endsWith rest suffix
     end.

(** [if (!value) missing.push(name)], for a variable of [process.env]. *)
Definition push_missing (name : string) (value : option string)
    (missing : list string) : list string :=
  if negb (given_str value) then missing ++ [name] else missing.

Definition missing_message (missing : list string) : string :=
  "Missing required environment variables: " +:+ join ", " missing
  +:+ newline +:+ newline
  +:+ "Please set the following environment variables:" +:+ newline
  +:+ "  EDD_API_URL   - Your EDD store API URL (e.g., https://example.com/edd-api/)"
  +:+ newline
  +:+ "  EDD_API_KEY   - Your EDD API public key" +:+ newline
  +:+ "  EDD_API_TOKEN - Your EDD API token" +:+ newline +:+ newline
  +:+ "You can set these in a .env file or as system environment variables.".

(** [validateEnv()], over the variables that [process.env] holds. Past
    the check each variable is a non-empty string, which [apiUrl!],
    [apiKey!] and [apiToken!] then are. *)
Definition validateEnv (env : gmap string string)
  : JsError + EDDClientConfig :=
  let apiUrl := env !! "EDD_API_URL" in
  let apiKey := env !! "EDD_API_KEY" in
  let apiToken := env !! "EDD_API_TOKEN" in
  let missing := [] in
  let missing := push_missing "EDD_API_URL" apiUrl missing in
  let missing := push_missing "EDD_API_KEY" apiKey missing in
  let missing := push_missing "EDD_API_TOKEN" apiToken missing in
  if (0 <? length missing)%nat
  then inl (Error (missing_message missing))
  else
    let normalizedUrl :=
      if endsWith (default "" apiUrl) "/" then default "" apiUrl
      else default "" apiUrl +:+ "/" in
    inr (mkConfig normalizedUrl (default "" apiKey) (default "" apiToken)).

(** The environment that holds the settings of a configuration. *)
Definition env_of (config : EDDClientConfig) : gmap string string :=
  {[ "EDD_API_URL" := apiUrl config; "EDD_API_KEY" := apiKey config;
     "EDD_API_TOKEN" := apiToken config ]}.

(** ** Notions for the statements *)

(** An entry as the query holds it. *)
Definition coerced (entry : string * ParamValue) : string * string :=
  (fst entry, String_ (snd entry)).

(** The sum of delays. *)
Definition total (delays : list Z) : Z := foldr Z.add 0 delays.

(** [typeof value === 'number']. *)
Definition is_number (value : JsValue) : bool :=
  match value with
  | JNum _ => true
  | _ => false
  end.

(** A pair of the result, read as the field it was made from. *)
Definition as_entry (stat : ProductStat) : string * JsValue :=
  (stat_name stat, JNum (stat_value stat)).

(** The product statistics of the examples. *)
Definition product_response : gmap string JsValue :=
  {[ "WP Fusion" := JNum 1000; "note" := JStr "n/a";
     "request_speed" := JNum (1 # 100); "totals" := JNum 1500 ]}.

(* ===================================================================== *)
(** * What one attempt does *)
(* ===================================================================== *)

(** How the [try] block of [request] settles, from what the network
    answered. *)
Definition settle `{JsRuntime} (o : FetchOutcome) : Thrown + JsValue :=
  match o with
  | Rejected t => inl t
  | Resolved r =>
      if ok r then
        match json r with
        | inl t => inl t
        | inr data =>
            match js_get data "error" with
            | inl e => inl (ThrownError e)
            | inr data_error =>
                if truthy data_error
                then inl (ThrownError
                            (Error ("EDD API Error: " +:+ js_String data_error)))
                else inr data
            end
        end
      else inl (ThrownError
                  (Error ("HTTP " +:+ Z_toString (status r) +:+ ": "
                          +:+ statusText r)))
  end.

(** The delays of the iterations that remain, all failing. *)
Fixpoint backoffs (retries : Z) (remaining : nat) (attempt : Z) : list Z :=
  match remaining with
  | O => []
  | S remaining' =>
      (if attempt <? retries then [backoff attempt] else [])
      ++ backoffs retries remaining' (attempt + 1)
  end.

(** The events of the iterations that remain, all failing: each call,
    and after it the delay when another attempt follows. *)
Fixpoint loop_events (url : string) (retries : Z) (remaining : nat)
    (attempt : Z) : list Event :=
  match remaining with
  | O => []
  | S remaining' =>
      Fetched url
      :: (if attempt <? retries then [Waited (backoff attempt)] else [])
      ++ loop_events url retries remaining' (attempt + 1)
  end.

(** The events of failed attempts that are each followed by another: the
    call, and then the delay of that attempt. *)
Definition retried (url : string) (attempts : list Z) : list Event :=
  flat_map (fun attempt => [Fetched url; Waited (backoff attempt)]) attempts.

Lemma try_attempt_once `{JsRuntime} url w :
  try_catch (attempt_once url) w =
    (Return (settle (network w (length (calls w)) url)), called url w).
Proof.
  unfold try_catch, attempt_once, bind, fetch, settle, called, response_json, lift.
  destruct (network w (length (calls w)) url) as [t | r]; [reflexivity |].
  destruct (ok r); simpl; [| reflexivity].
  destruct (json r) as [t | data]; [reflexivity |].
  destruct (js_get data "error") as [e | v]; [reflexivity |].
  simpl. destruct (truthy v); reflexivity.
Qed.

(** ** The loop, one iteration at a time *)

Section Loop.
Context `{JsRuntime}.
Variables (url : string) (retries : Z).

Lemma request_loop_succeeds remaining attempt lastError w data :
  settle (network w (length (calls w)) url) = inr data ->
  request_loop url retries (S remaining) attempt lastError w =
    (Return data, called url w).
Proof.
  intros Hs. cbn [request_loop]. unfold bind at 1.
  rewrite try_attempt_once, Hs. reflexivity.
Qed.

Lemma request_loop_fails remaining attempt lastError w t :
  settle (network w (length (calls w)) url) = inl t ->
  request_loop url retries (S remaining) attempt lastError w =
    request_loop url retries remaining (attempt + 1) (Some (as_Error t))
      (if attempt <? retries then slept (backoff attempt) (called url w)
       else called url w).
Proof.
  intros Hs. cbn [request_loop]. unfold bind at 1.
  rewrite try_attempt_once, Hs. unfold bind at 1.
  destruct (attempt <? retries); reflexivity.
Qed.

(** When every remaining attempt fails, the loop throws the error of the
    last one, after one call per attempt and the delays in between. *)
Lemma request_loop_all_fail remaining :
  forall attempt lastError w,
    (forall i, (i < remaining)%nat ->
       exists t, settle (network w (length (calls w) + i) url) = inl t) ->
    exists e,
      request_loop url retries remaining attempt lastError w =
        (Throw (ThrownError e),
         mkWorld (network w) (calls w ++ repeat url remaining)
           (timers w ++ backoffs retries remaining attempt)
           (events w ++ loop_events url retries remaining attempt))
      /\ match remaining with
         | O => e = match lastError with
                    | Some e' => e'
                    | None => Error "Request failed after retries"
                    end
         | S k => exists t,
             settle (network w (length (calls w) + k) url) = inl t
             /\ e = as_Error t
         end.
Proof.
  induction remaining as [| k IH]; intros attempt lastError w Hall.
  - exists (match lastError with
            | Some e' => e'
            | None => Error "Request failed after retries"
            end).
    split; [| reflexivity].
    cbn [request_loop repeat backoffs loop_events]. rewrite !app_nil_r.
    destruct w; reflexivity.
  - assert (H0 : (0 < S k)%nat) by lia.
    destruct (Hall 0%nat H0) as [t0 Ht0].
    rewrite Nat.add_0_r in Ht0.
    rewrite (request_loop_fails _ _ _ _ _ Ht0).
    set (w2 := if attempt <? retries
               then slept (backoff attempt) (called url w)
               else called url w).
    assert (Hnet : network w2 = network w)
      by (unfold w2; destruct (attempt <? retries); reflexivity).
    assert (Hcalls : calls w2 = (calls w ++ [url])%list)
      by (unfold w2; destruct (attempt <? retries); reflexivity).
    assert (Htimers : timers w2 =
              (timers w ++ (if attempt <? retries then [backoff attempt] else []))%list)
      by (unfold w2; destruct (attempt <? retries); simpl;
          [reflexivity | by rewrite app_nil_r]).
    assert (Hevents : events w2 =
              (events w ++ Fetched url
                 :: (if attempt <? retries then [Waited (backoff attempt)]
                     else []))%list)
      by (unfold w2; destruct (attempt <? retries); simpl;
          [by rewrite <- app_assoc | reflexivity]).
    destruct (IH (attempt + 1) (Some (as_Error t0)) w2) as (e & Hrun & Hlast).
    { intros i Hi. rewrite Hnet, Hcalls, length_app. simpl.
      assert (Hi' : (S i < S k)%nat) by lia.
      destruct (Hall (S i) Hi') as [t Ht]. exists t.
      replace (length (calls w) + 1 + i)%nat
        with (length (calls w) + S i)%nat by lia.
      exact Ht. }
    exists e. split.
    + rewrite Hrun, Hnet, Hcalls, Htimers, Hevents.
      cbn [repeat backoffs loop_events]. by rewrite <- !app_assoc.
    + destruct k as [| k'].
      * exists t0. by rewrite Nat.add_0_r.
      * destruct Hlast as (t & Ht & He). exists t. split; [| exact He].
        rewrite Hnet, Hcalls, length_app in Ht. simpl in Ht.
        replace (length (calls w) + 1 + k')%nat
          with (length (calls w) + S k')%nat in Ht by lia.
        exact Ht.
Qed.

(** The delays of a whole run that never succeeds: one after each
    attempt but the last. *)
Lemma backoffs_seqZ remaining :
  forall attempt,
    attempt + Z.of_nat remaining = retries + 1 ->
    backoffs retries remaining attempt =
      backoff <$> seqZ attempt (Z.of_nat remaining - 1).
Proof.
  induction remaining as [| k IH]; intros attempt Hsum.
  - reflexivity.
  - cbn [backoffs]. rewrite IH by lia.
    destruct (Z.ltb_spec attempt retries) as [Hlt | Hge].
    + replace (Z.of_nat (S k) - 1) with (Z.succ (Z.of_nat k - 1)) by lia.
      rewrite (seqZ_cons attempt) by lia. simpl.
      replace (Z.pred (Z.succ (Z.of_nat k - 1))) with (Z.of_nat k - 1) by lia.
      reflexivity.
    + assert (k = 0%nat) by lia. subst k. reflexivity.
Qed.

(** The events of a whole run that never succeeds: every attempt but the
    last is a call followed by its delay, the last is a call alone. *)
Lemma loop_events_seqZ remaining :
  forall attempt,
    attempt + Z.of_nat (S remaining) = retries + 1 ->
    loop_events url retries (S remaining) attempt =
      (retried url (seqZ attempt (Z.of_nat remaining)) ++ [Fetched url])%list.
Proof.
  induction remaining as [| k IH]; intros attempt Hsum.
  - cbn [loop_events].
    destruct (Z.ltb_spec attempt retries) as [Hlt | Hge]; [lia | reflexivity].
  - cbn [loop_events] in *.
    destruct (Z.ltb_spec attempt retries) as [Hlt | Hge]; [| lia].
    rewrite (IH (attempt + 1)) by lia.
    rewrite (seqZ_cons attempt) by lia.
    replace (Z.pred (Z.of_nat (S k))) with (Z.of_nat k) by lia.
    reflexivity.
Qed.
End Loop.

(* ===================================================================== *)
(** * [request]: retries, backoff and the error raised *)
(* ===================================================================== *)

(** A run in which no attempt succeeds makes one call per attempt of the
    budget, waits after each attempt but the last, and throws the error of
    the last attempt. *)
Lemma request_all_fail `{JsRuntime} (w : World) (url : string) (retries : Z) :
  1 <= retries ->
  (forall i, (i < Z.to_nat retries)%nat ->
     exists t, settle (network w (length (calls w) + i) url) = inl t) ->
  exists t,
    settle (network w (length (calls w) + (Z.to_nat retries - 1)) url) = inl t
    /\ request url retries w =
         (Throw (ThrownError (as_Error t)),
          mkWorld (network w) (calls w ++ repeat url (Z.to_nat retries))
            (timers w ++ (backoff <$> seqZ 1 (retries - 1)))
            (events w ++ retried url (seqZ 1 (retries - 1)) ++ [Fetched url])).
Proof.
  intros Hpos Hall. unfold request.
  destruct (request_loop_all_fail url retries (Z.to_nat retries) 1 None w)
    as (e & Hrun & Hlast).
  { exact Hall. }
  destruct (Z.to_nat retries) as [| k] eqn:Hk; [lia |].
  destruct Hlast as (t & Ht & He). exists t. split.
  - replace (S k - 1)%nat with k by lia. exact Ht.
  - rewrite Hrun, He, (backoffs_seqZ retries (S k) 1) by lia.
    rewrite (loop_events_seqZ url retries k 1) by lia.
    replace (Z.of_nat (S k) - 1) with (retries - 1) by lia.
    replace (Z.of_nat k) with (retries - 1) by lia.
    reflexivity.
Qed.

(** With no attempt to make, the loop is skipped and the generic error is
    thrown. *)
Lemma request_no_attempt `{JsRuntime} (w : World) (url : string) (retries : Z) :
  retries <= 0 ->
  request url retries w =
    (Throw (ThrownError (Error "Request failed after retries")), w).
Proof.
  intros Hle. unfold request.
  replace (Z.to_nat retries) with 0%nat by lia. reflexivity.
Qed.

(** C2. A transport that fails on the first two attempts and succeeds on
    the third: [request] with the default budget returns the decoded body
    of the third attempt. The transport has been called exactly three
    times and exactly two delays were awaited, and the events came in this
    order: the first call, a delay of 1000 ms, the second call, a delay of
    2000 ms, the third call. Each delay lies between two attempts and
    none follows the last. *)
Theorem request_succeeds_on_third_attempt `{JsRuntime}
    (w : World) (url : string) (t1 t2 : Thrown) (r : Response)
    (data data_error : JsValue) :
  network w (length (calls w)) url = Rejected t1 ->
  network w (S (length (calls w))) url = Rejected t2 ->
  network w (S (S (length (calls w)))) url = Resolved r ->
  ok r = true ->
  json r = inr data ->
  js_get data "error" = inr data_error ->
  truthy data_error = false ->
  request url default_retries w =
    (Return data,
     mkWorld (network w) (calls w ++ [url; url; url])
       (timers w ++ [1000; 2000])
       (events w ++ [Fetched url; Waited 1000; Fetched url; Waited 2000;
                     Fetched url])).
Proof.
  intros H1 H2 H3 Hok Hjson Hget Hfalsy.
  unfold request, default_retries.
  change (Z.to_nat 3) with 3%nat.
  rewrite (request_loop_fails url 3 _ _ _ _ t1)
    by (unfold settle; by rewrite H1).
  change (1 <? 3) with true. cbv iota.
  rewrite (request_loop_fails url 3 _ _ _ _ t2)
    by (unfold settle; simpl; rewrite length_app, Nat.add_1_r; by rewrite H2).
  change (1 + 1 <? 3) with true. cbv iota.
  rewrite (request_loop_succeeds url 3 _ _ _ _ data).
  - unfold called, slept. simpl. rewrite <- !app_assoc. reflexivity.
  - unfold settle. simpl. rewrite !length_app. simpl.
    rewrite !Nat.add_1_r, H3, Hok, Hjson, Hget, Hfalsy. reflexivity.
Qed.

Lemma request_succeeds_on_third_attempt_witness :
  request (H := sample_runtime) "https://example.com/edd-api/products/"
    default_retries
    (fresh (fails_then 2 (ok_json (JObj {[ "products" := JArr [] ]})))) =
    (Return (JObj {[ "products" := JArr [] ]}),
     mkWorld (fails_then 2 (ok_json (JObj {[ "products" := JArr [] ]})))
       ["https://example.com/edd-api/products/";
        "https://example.com/edd-api/products/";
        "https://example.com/edd-api/products/"]
       [1000; 2000]
       [Fetched "https://example.com/edd-api/products/";
        Waited 1000;
        Fetched "https://example.com/edd-api/products/";
        Waited 2000;
        Fetched "https://example.com/edd-api/products/"]).
Proof.
  apply (request_succeeds_on_third_attempt (H := sample_runtime)
           (fresh (fails_then 2 (ok_json (JObj {[ "products" := JArr [] ]}))))
           "https://example.com/edd-api/products/"
           (ThrownError (Error "Network error"))
           (ThrownError (Error "Network error"))
           (mkResponse 200 "OK" (inr (JObj {[ "products" := JArr [] ]})))
           (JObj {[ "products" := JArr [] ]}) JUndefined);
    reflexivity.
Defined.

(** C3. Every attempt answers with a status outside 200-299: [request]
    throws after exactly [retries] calls (3 by default), and the error is
    the one of the last response, its message made of that response's
    status code and status text. *)
Theorem request_http_error_after_budget `{JsRuntime}
    (w : World) (url : string) (retries : Z) (r_last : Response) :
  1 <= retries ->
  (forall i, (i < Z.to_nat retries)%nat ->
     exists r, network w (length (calls w) + i) url = Resolved r
               /\ ok r = false) ->
  network w (length (calls w) + (Z.to_nat retries - 1)) url = Resolved r_last ->
  request url retries w =
    (Throw (ThrownError
              (Error ("HTTP " +:+ Z_toString (status r_last) +:+ ": "
                      +:+ statusText r_last))),
     mkWorld (network w) (calls w ++ repeat url (Z.to_nat retries))
       (timers w ++ (backoff <$> seqZ 1 (retries - 1)))
       (events w ++ retried url (seqZ 1 (retries - 1)) ++ [Fetched url])).
Proof.
  intros Hpos Hall Hlast.
  destruct (request_all_fail w url retries Hpos) as (t & Ht & Hrun).
  { intros i Hi. destruct (Hall i Hi) as (r & Hr & Hko).
    eexists. unfold settle. rewrite Hr, Hko. reflexivity. }
  rewrite Hrun.
  assert (Hin : (Z.to_nat retries - 1 < Z.to_nat retries)%nat) by lia.
  destruct (Hall _ Hin) as (r & Hr & Hko).
  rewrite Hlast in Hr. injection Hr as <-.
  unfold settle in Ht. rewrite Hlast, Hko in Ht. injection Ht as <-.
  reflexivity.
Qed.

Lemma request_http_error_after_budget_witness :
  request (H := sample_runtime) "https://example.com/edd-api/customers/"
    default_retries
    (fresh (always (Resolved (mkResponse 401 "Unauthorized" (inr (JObj ∅)))))) =
    (Throw (ThrownError (Error "HTTP 401: Unauthorized")),
     mkWorld (always (Resolved (mkResponse 401 "Unauthorized" (inr (JObj ∅)))))
       ["https://example.com/edd-api/customers/";
        "https://example.com/edd-api/customers/";
        "https://example.com/edd-api/customers/"]
       [1000; 2000]
       [Fetched "https://example.com/edd-api/customers/";
        Waited 1000;
        Fetched "https://example.com/edd-api/customers/";
        Waited 2000;
        Fetched "https://example.com/edd-api/customers/"]).
Proof.
  apply (request_http_error_after_budget (H := sample_runtime)
           (fresh (always (Resolved
                             (mkResponse 401 "Unauthorized" (inr (JObj ∅))))))
           "https://example.com/edd-api/customers/" 3
           (mkResponse 401 "Unauthorized" (inr (JObj ∅)))).
  - lia.
  - intros i _. eexists. split; reflexivity.
  - reflexivity.
Defined.

(** C4. Every attempt answers 200 with a JSON object whose [error] field
    is a non-empty string: each answer counts as a failure, so [request]
    makes its [retries] calls with the same delays that a run of transport
    or HTTP failures makes, and then throws an error whose message carries
    the string of the last answer. *)
Theorem request_api_error_after_budget `{JsRuntime}
    (w : World) (url : string) (retries : Z)
    (text_last : string) (body_last : gmap string JsValue)
    (error_last : string) :
  1 <= retries ->
  (forall i, (i < Z.to_nat retries)%nat ->
     exists text body error,
       network w (length (calls w) + i) url =
         Resolved (mkResponse 200 text (inr (JObj body)))
       /\ body !! "error" = Some (JStr error) /\ error <> "") ->
  network w (length (calls w) + (Z.to_nat retries - 1)) url =
    Resolved (mkResponse 200 text_last (inr (JObj body_last))) ->
  body_last !! "error" = Some (JStr error_last) ->
  let calls' := (calls w ++ repeat url (Z.to_nat retries))%list in
  let timers' := (timers w ++ (backoff <$> seqZ 1 (retries - 1)))%list in
  let events' :=
    (events w ++ retried url (seqZ 1 (retries - 1)) ++ [Fetched url])%list in
  request url retries w =
    (Throw (ThrownError (Error ("EDD API Error: " +:+ error_last))),
     mkWorld (network w) calls' timers' events')
  /\ forall net,
       (forall i, (i < Z.to_nat retries)%nat ->
          (exists t, net (length (calls w) + i)%nat url = Rejected t)
          \/ (exists r, net (length (calls w) + i)%nat url = Resolved r
                        /\ ok r = false)) ->
       exists e,
         request url retries (mkWorld net (calls w) (timers w) (events w)) =
           (Throw (ThrownError e), mkWorld net calls' timers' events').
Proof.
  intros Hpos Hall Hlast Herr calls' timers' events'.
  assert (Hsettle : forall text body error,
             body !! "error" = Some (JStr error) -> error <> "" ->
             settle (Resolved (mkResponse 200 text (inr (JObj body)))) =
               inl (ThrownError (Error ("EDD API Error: " +:+ error)))).
  { intros text body error Hb Hne. unfold settle. simpl. rewrite Hb. simpl.
    destruct (String.eqb_spec error ""); [contradiction | reflexivity]. }
  split.
  - destruct (request_all_fail w url retries Hpos) as (t & Ht & Hrun).
    { intros i Hi.
      destruct (Hall i Hi) as (text & body & error & Hr & Hb & Hne).
      eexists. rewrite Hr. by apply Hsettle. }
    rewrite Hrun.
    assert (Hin : (Z.to_nat retries - 1 < Z.to_nat retries)%nat) by lia.
    destruct (Hall _ Hin) as (text & body & error & Hr & Hb & Hne).
    rewrite Hlast in Hr. injection Hr as <- <-.
    rewrite Hlast, (Hsettle _ _ _ Hb Hne) in Ht. injection Ht as <-.
    rewrite Herr in Hb. injection Hb as <-. reflexivity.
  - intros net Hfail.
    destruct (request_all_fail (mkWorld net (calls w) (timers w) (events w))
                url retries
                Hpos) as (t & _ & Hrun).
    { intros i Hi. simpl. destruct (Hfail i Hi) as [[t Ht] | (r & Hr & Hko)].
      - exists t. by rewrite Ht.
      - eexists. unfold settle. rewrite Hr, Hko. reflexivity. }
    exists (as_Error t). exact Hrun.
Qed.

Lemma request_api_error_after_budget_witness :
  request (H := sample_runtime) "https://example.com/edd-api/customers/"
    default_retries
    (fresh (always (ok_json (JObj {[ "error" := JStr "Invalid API key" ]})))) =
    (Throw (ThrownError (Error "EDD API Error: Invalid API key")),
     mkWorld (always (ok_json (JObj {[ "error" := JStr "Invalid API key" ]})))
       ["https://example.com/edd-api/customers/";
        "https://example.com/edd-api/customers/";
        "https://example.com/edd-api/customers/"]
       [1000; 2000]
       [Fetched "https://example.com/edd-api/customers/";
        Waited 1000;
        Fetched "https://example.com/edd-api/customers/";
        Waited 2000;
        Fetched "https://example.com/edd-api/customers/"]).
Proof.
  refine (proj1 (request_api_error_after_budget (H := sample_runtime)
           (fresh (always (ok_json
                             (JObj {[ "error" := JStr "Invalid API key" ]}))))
           "https://example.com/edd-api/customers/" 3
           "OK" {[ "error" := JStr "Invalid API key" ]} "Invalid API key"
           _ _ _ _)).
  - lia.
  - intros i _. exists "OK", {[ "error" := JStr "Invalid API key" ]},
      "Invalid API key".
    split; [reflexivity | split; [reflexivity | discriminate]].
  - reflexivity.
  - reflexivity.
Defined.

(* ===================================================================== *)
(** * The endpoint methods: unwrapping the envelope *)
(* ===================================================================== *)

Lemma bind_Return {A B} (m : M A) (k : A -> M B) w a w' :
  m w = (Return a, w') -> bind m k w = k a w'.
Proof. intros Hm. unfold bind. by rewrite Hm. Qed.

Ltac after_request Hrequest :=
  cbv zeta; rewrite (bind_Return _ _ _ _ _ Hrequest).

(** C5. After a successful response whose resource array is empty, each of
    [getProduct], [getCustomerById], [getSaleById] and [getDiscount]
    returns [null] and throws nothing; the three authenticated ones also
    do so when the response has no such field. *)
Theorem lookups_return_null `{JsRuntime}
    (this : EDDClientConfig) (id : Z) (w w' : World) (response : JsValue) :
  (request
     (buildPublicUrl this "products/"
        (products_entries {| p_number := None; p_product := Some id |}))
     default_retries w = (Return response, w') ->
   js_get response "products" = inr (JArr []) ->
   getProduct this id w = (Return JNull, w'))
  /\ (request (buildUrl this "customers/" [("customer", PNum id)])
        default_retries w = (Return response, w') ->
      js_get response "customers" = inr (JArr [])
      \/ js_get response "customers" = inr JUndefined ->
      getCustomerById this id w = (Return JNull, w'))
  /\ (request (buildUrl this "sales/" [("id", PNum id)])
        default_retries w = (Return response, w') ->
      js_get response "sales" = inr (JArr [])
      \/ js_get response "sales" = inr JUndefined ->
      getSaleById this id w = (Return JNull, w'))
  /\ (request (buildUrl this "discounts/" [("discount", PNum id)])
        default_retries w = (Return response, w') ->
      js_get response "discounts" = inr (JArr [])
      \/ js_get response "discounts" = inr JUndefined ->
      getDiscount this id w = (Return JNull, w')).
Proof.
  repeat split.
  - intros Hrequest Hfield. unfold getProduct, listProducts.
    unfold bind at 1. after_request Hrequest. by rewrite Hfield.
  - intros Hrequest [Hfield | Hfield]; unfold getCustomerById;
      after_request Hrequest; by rewrite Hfield.
  - intros Hrequest [Hfield | Hfield]; unfold getSaleById;
      after_request Hrequest; by rewrite Hfield.
  - intros Hrequest [Hfield | Hfield]; unfold getDiscount;
      after_request Hrequest; by rewrite Hfield.
Qed.

Lemma lookups_return_null_witness :
  getProduct (H := sample_runtime) test_config 9999
    (fresh (always (ok_json (JObj {[ "products" := JArr [] ]})))) =
    (Return JNull,
     mkWorld (always (ok_json (JObj {[ "products" := JArr [] ]})))
       ["https://example.com/edd-api/products/?product=9999"] []
         [Fetched "https://example.com/edd-api/products/?product=9999"])
  /\ getSaleById (H := sample_runtime) test_config 9999
       (fresh (always (ok_json (JObj ∅)))) =
       (Return JNull,
        mkWorld (always (ok_json (JObj ∅)))
          ["https://example.com/edd-api/sales/?key=test-key&token=test-token&id=9999"]
          []
          [Fetched "https://example.com/edd-api/sales/?key=test-key&token=test-token&id=9999"]).
Proof.
  split.
  - apply (proj1 (lookups_return_null (H := sample_runtime) test_config 9999
                    _ _ (JObj {[ "products" := JArr [] ]})));
      reflexivity.
  - apply (proj1 (proj2 (proj2
             (lookups_return_null (H := sample_runtime) test_config 9999
                _ _ (JObj ∅)))));
      [reflexivity | right; reflexivity].
Defined.

(** C6. After a successful flat date-range response, [getStatsByDateRange]
    returns the mapping of the response without the keys [request_speed]
    and [totals], every other key with its value; the response of the unit
    test gives exactly its three dates. *)
Theorem getStatsByDateRange_strips_meta `{JsRuntime}
    (this : EDDClientConfig) (type : StatsType) (startDate endDate : string)
    (w w' : World) (response : gmap string JsValue) :
  request
    (buildUrl this "stats/"
       [("type", PStr (type_name type)); ("date", PStr "range");
        ("startdate", PStr startDate); ("enddate", PStr endDate)])
    default_retries w = (Return (JObj response), w') ->
  exists dateData : gmap string JsValue,
    getStatsByDateRange this type startDate endDate w =
      (Return (JObj dateData), w')
    /\ dateData !! "request_speed" = None
    /\ dateData !! "totals" = None
    /\ (forall key, key <> "request_speed" -> key <> "totals" ->
          dateData !! key = response !! key)
    /\ (response = range_response -> dateData = range_dates).
Proof.
  intros Hrequest.
  exists (delete "request_speed" (delete "totals" response)).
  split; [| split; [| split; [| split]]].
  - unfold getStatsByDateRange. after_request Hrequest. reflexivity.
  - apply lookup_delete_eq.
  - rewrite lookup_delete_ne by discriminate. apply lookup_delete_eq.
  - intros key Hspeed Htotals.
    rewrite !lookup_delete_ne by congruence. reflexivity.
  - intros ->. vm_compute. reflexivity.
Qed.

Lemma getStatsByDateRange_strips_meta_witness :
  exists dateData : gmap string JsValue,
    getStatsByDateRange (H := sample_runtime) test_config earnings
      "20250101" "20250103" (fresh (always (ok_json (JObj range_response)))) =
      (Return (JObj dateData),
       mkWorld (always (ok_json (JObj range_response)))
         ["https://example.com/edd-api/stats/?key=test-key&token=test-token&type=earnings&date=range&startdate=20250101&enddate=20250103"]
         []
         [Fetched "https://example.com/edd-api/stats/?key=test-key&token=test-token&type=earnings&date=range&startdate=20250101&enddate=20250103"])
    /\ dateData = range_dates.
Proof.
  destruct (getStatsByDateRange_strips_meta (H := sample_runtime) test_config
              earnings "20250101" "20250103"
              (fresh (always (ok_json (JObj range_response))))
              (mkWorld (always (ok_json (JObj range_response)))
                 ["https://example.com/edd-api/stats/?key=test-key&token=test-token&type=earnings&date=range&startdate=20250101&enddate=20250103"]
                 []
                 [Fetched "https://example.com/edd-api/stats/?key=test-key&token=test-token&type=earnings&date=range&startdate=20250101&enddate=20250103"])
              range_response eq_refl)
    as (dateData & Hrun & _ & _ & _ & Hexample).
  exists dateData. split; [exact Hrun | exact (Hexample eq_refl)].
Defined.

(** C7. After a successful response that is an object, [getStats] returns
    its [stats] property when that is truthy, and otherwise an object
    that maps the requested type to the response's value for it. Hence
    the same data, whether wrapped as [{stats: {type: data}}] or flat as
    [{type: data, request_speed: ...}], comes back as [{type: data}]. *)
Theorem getStats_normalizes `{JsRuntime}
    (this : EDDClientConfig) (type : StatsType) (w w' : World)
    (response : gmap string JsValue) :
  request (buildUrl this "stats/" [("type", PStr (type_name type))])
    default_retries w = (Return (JObj response), w') ->
  getStats this type w =
    (Return
       (let stats := default JUndefined (response !! "stats") in
        if truthy stats then stats
        else JObj {[ type_name type :=
                       default JUndefined (response !! type_name type) ]}),
     w')
  /\ forall data : JsValue,
       response !! "stats" = Some (JObj {[ type_name type := data ]})
       \/ (response !! "stats" = None
           /\ response !! type_name type = Some data) ->
       getStats this type w =
         (Return (JObj {[ type_name type := data ]}), w').
Proof.
  intros Hrequest.
  assert (Hrun : getStats this type w =
    (Return
       (let stats := default JUndefined (response !! "stats") in
        if truthy stats then stats
        else JObj {[ type_name type :=
                       default JUndefined (response !! type_name type) ]}),
     w')).
  { unfold getStats. after_request Hrequest.
    unfold normalize_stats, js_in, js_get. cbn [lift].
    destruct (response !! "stats") as [stats |] eqn:Hstats.
    - rewrite bool_decide_true by eauto. unfold bind, ret. simpl.
      destruct (truthy stats); reflexivity.
    - rewrite bool_decide_false by (intros [? ?]; discriminate).
      reflexivity. }
  split; [exact Hrun |].
  intros data [Hwrapped | [Hflat Hdata]]; rewrite Hrun.
  - rewrite Hwrapped. reflexivity.
  - rewrite Hflat, Hdata. reflexivity.
Qed.

Lemma getStats_normalizes_witness :
  getStats (H := sample_runtime) test_config earnings
    (fresh (always (ok_json (JObj
       {[ "stats" := JObj {[ "earnings" := JNum 5000 ]} ]})))) =
    (Return (JObj {[ "earnings" := JNum 5000 ]}),
     mkWorld
       (always (ok_json (JObj
          {[ "stats" := JObj {[ "earnings" := JNum 5000 ]} ]})))
       ["https://example.com/edd-api/stats/?key=test-key&token=test-token&type=earnings"]
       []
       [Fetched "https://example.com/edd-api/stats/?key=test-key&token=test-token&type=earnings"])
  /\ getStats (H := sample_runtime) test_config earnings
       (fresh (always (ok_json (JObj
          {[ "earnings" := JNum 5000; "request_speed" := JNum (1 # 100) ]})))) =
       (Return (JObj {[ "earnings" := JNum 5000 ]}),
        mkWorld
          (always (ok_json (JObj
             {[ "earnings" := JNum 5000; "request_speed" := JNum (1 # 100) ]})))
          ["https://example.com/edd-api/stats/?key=test-key&token=test-token&type=earnings"]
          []
          [Fetched "https://example.com/edd-api/stats/?key=test-key&token=test-token&type=earnings"]).
Proof.
  split.
  - refine (proj2 (getStats_normalizes (H := sample_runtime) test_config
                     earnings _ _
                     {[ "stats" := JObj {[ "earnings" := JNum 5000 ]} ]}
                     _) (JNum 5000) _).
    + reflexivity.
    + left. reflexivity.
  - refine (proj2 (getStats_normalizes (H := sample_runtime) test_config
                     earnings _ _
                     {[ "earnings" := JNum 5000;
                        "request_speed" := JNum (1 # 100) ]}
                     _) (JNum 5000) _).
    + reflexivity.
    + right. split; reflexivity.
Defined.

(** C10. After a successful response without the envelope field,
    [listSales], [listCustomers], [listDiscounts] and [getDownloadLogs]
    return an empty array. [listProducts] has no such guard: it returns
    whatever the response holds under [products], so [undefined] when the
    field is missing, and [getProduct] then throws on taking its first
    element. *)
Theorem lists_without_envelope_field `{JsRuntime}
    (this : EDDClientConfig) (w w' : World) (response : JsValue) :
  (forall options,
      request (buildUrl this "sales/" (sales_entries options))
        default_retries w = (Return response, w') ->
      js_get response "sales" = inr JUndefined ->
      listSales this options w = (Return (JArr []), w'))
  /\ (forall options,
        request (buildUrl this "customers/" (page_entries options))
          default_retries w = (Return response, w') ->
        js_get response "customers" = inr JUndefined ->
        listCustomers this options w = (Return (JArr []), w'))
  /\ (forall options,
        request (buildUrl this "discounts/" (discounts_entries options))
          default_retries w = (Return response, w') ->
        js_get response "discounts" = inr JUndefined ->
        listDiscounts this options w = (Return (JArr []), w'))
  /\ (forall options,
        request (buildUrl this "file-download-logs/" (logs_entries options))
          default_retries w = (Return response, w') ->
        js_get response "download_logs" = inr JUndefined ->
        getDownloadLogs this options w = (Return (JArr []), w'))
  /\ (forall options,
        request (buildPublicUrl this "products/" (products_entries options))
          default_retries w = (Return response, w') ->
        js_get response "products" = inr JUndefined ->
        listProducts this options w = (Return JUndefined, w'))
  /\ (forall productId,
        request
          (buildPublicUrl this "products/"
             (products_entries
                {| p_number := None; p_product := Some productId |}))
          default_retries w = (Return response, w') ->
        js_get response "products" = inr JUndefined ->
        getProduct this productId w =
          (Throw (ThrownError
                    (TypeError
                       "Cannot read properties of undefined (reading '0')")),
           w'))
  /\ (forall options field,
        request (buildPublicUrl this "products/" (products_entries options))
          default_retries w = (Return response, w') ->
        js_get response "products" = inr field ->
        listProducts this options w = (Return field, w')).
Proof.
  split; [| split; [| split; [| split; [| split; [| split]]]]].
  - intros arg Hrequest Hfield.
    unfold listSales. after_request Hrequest. by rewrite Hfield.
  - intros arg Hrequest Hfield.
    unfold listCustomers. after_request Hrequest. by rewrite Hfield.
  - intros arg Hrequest Hfield.
    unfold listDiscounts. after_request Hrequest. by rewrite Hfield.
  - intros arg Hrequest Hfield.
    unfold getDownloadLogs. after_request Hrequest. by rewrite Hfield.
  - intros arg Hrequest Hfield.
    unfold listProducts. after_request Hrequest. by rewrite Hfield.
  - intros arg Hrequest Hfield.
    unfold getProduct, listProducts. unfold bind at 1.
    after_request Hrequest. by rewrite Hfield.
  - intros options field Hrequest Hfield.
    unfold listProducts. after_request Hrequest. by rewrite Hfield.
Qed.

Lemma lists_without_envelope_field_witness :
  getDownloadLogs (H := sample_runtime) test_config
    {| l_number := Some 10; l_product := None; l_customer := None |}
    (fresh (always (ok_json (JObj {[ "request_speed" := JNum (1 # 100) ]})))) =
    (Return (JArr []),
     mkWorld (always (ok_json (JObj {[ "request_speed" := JNum (1 # 100) ]})))
       ["https://example.com/edd-api/file-download-logs/?key=test-key&token=test-token&number=10"]
       []
       [Fetched "https://example.com/edd-api/file-download-logs/?key=test-key&token=test-token&number=10"])
  /\ getProduct (H := sample_runtime) test_config 42
       (fresh (always (ok_json (JObj {[ "request_speed" := JNum (1 # 100) ]})))) =
       (Throw (ThrownError
                 (TypeError "Cannot read properties of undefined (reading '0')")),
        mkWorld
          (always (ok_json (JObj {[ "request_speed" := JNum (1 # 100) ]})))
          ["https://example.com/edd-api/products/?product=42"] []
          [Fetched "https://example.com/edd-api/products/?product=42"])
  /\ listProducts (H := sample_runtime) test_config
       {| p_number := Some 3; p_product := None |}
       (fresh (always (ok_json (JObj {[ "products" := JNull ]})))) =
       (Return JNull,
        mkWorld (always (ok_json (JObj {[ "products" := JNull ]})))
          ["https://example.com/edd-api/products/?number=3"] []
          [Fetched "https://example.com/edd-api/products/?number=3"]).
Proof.
  split; [| split].
  - refine (proj1 (proj2 (proj2 (proj2
      (lists_without_envelope_field (H := sample_runtime) test_config _ _
         (JObj {[ "request_speed" := JNum (1 # 100) ]}))))) _ _ _);
      reflexivity.
  - refine (proj1 (proj2 (proj2 (proj2 (proj2 (proj2
      (lists_without_envelope_field (H := sample_runtime) test_config _ _
         (JObj {[ "request_speed" := JNum (1 # 100) ]}))))))) _ _ _);
      reflexivity.
  - refine (proj2 (proj2 (proj2 (proj2 (proj2 (proj2
      (lists_without_envelope_field (H := sample_runtime) test_config _ _
         (JObj {[ "products" := JNull ]}))))))) _ JNull _ _);
      reflexivity.
Defined.

(* ===================================================================== *)
(** * The handlers *)
(* ===================================================================== *)

(** C9. With neither identifying parameter given (left out, or falsy),
    [edd_get_sale] and [edd_get_customer] return their own message as
    content, throw nothing and leave the world as it was: no call is made.
    When the lookup they run returns [null], they return ['Sale not found']
    and ['Customer not found'] as content and throw nothing. *)
Theorem alternate_key_handlers `{JsRuntime}
    (edd : EDDClientConfig) (w w' : World) :
  (forall saleId purchaseKey,
      given_num saleId = false -> given_str purchaseKey = false ->
      edd_get_sale edd saleId purchaseKey w =
        (Return (text_result "Error: Either saleId or purchaseKey is required"),
         w))
  /\ (forall customerId email,
        given_num customerId = false -> given_str email = false ->
        edd_get_customer edd customerId email w =
          (Return (text_result "Error: Either customerId or email is required"),
           w))
  /\ (forall saleId purchaseKey,
        saleId <> 0 ->
        getSaleById edd saleId w = (Return JNull, w') ->
        edd_get_sale edd (Some saleId) purchaseKey w =
          (Return (text_result "Sale not found"), w'))
  /\ (forall saleId purchaseKey,
        given_num saleId = false -> purchaseKey <> "" ->
        getSaleByKey edd purchaseKey w = (Return JNull, w') ->
        edd_get_sale edd saleId (Some purchaseKey) w =
          (Return (text_result "Sale not found"), w'))
  /\ (forall customerId email,
        customerId <> 0 ->
        getCustomerById edd customerId w = (Return JNull, w') ->
        edd_get_customer edd (Some customerId) email w =
          (Return (text_result "Customer not found"), w'))
  /\ (forall customerId email,
        given_num customerId = false -> email <> "" ->
        getCustomerByEmail edd email w = (Return JNull, w') ->
        edd_get_customer edd customerId (Some email) w =
          (Return (text_result "Customer not found"), w')).
Proof.
  assert (Hnum : forall n, n <> 0 -> given_num (Some n) = true).
  { intros n Hn. simpl. by destruct (Z.eqb_spec n 0). }
  assert (Hstr : forall s, s <> "" -> given_str (Some s) = true).
  { intros s Hs. simpl. by destruct (String.eqb_spec s ""). }
  repeat split.
  - intros saleId purchaseKey Hid Hkey. unfold edd_get_sale.
    by rewrite Hid, Hkey.
  - intros customerId email Hid Hemail. unfold edd_get_customer.
    by rewrite Hid, Hemail.
  - intros saleId purchaseKey Hid Hnull. unfold edd_get_sale.
    rewrite (Hnum _ Hid). cbn [negb andb default from_option].
    by rewrite (bind_Return _ _ _ _ _ Hnull).
  - intros saleId purchaseKey Hid Hkey Hnull. unfold edd_get_sale.
    rewrite Hid, (Hstr _ Hkey). cbn [negb andb default from_option].
    by rewrite (bind_Return _ _ _ _ _ Hnull).
  - intros customerId email Hid Hnull. unfold edd_get_customer.
    rewrite (Hnum _ Hid). cbn [negb andb default from_option].
    by rewrite (bind_Return _ _ _ _ _ Hnull).
  - intros customerId email Hid Hemail Hnull. unfold edd_get_customer.
    rewrite Hid, (Hstr _ Hemail). cbn [negb andb default from_option].
    by rewrite (bind_Return _ _ _ _ _ Hnull).
Qed.

Lemma alternate_key_handlers_witness :
  edd_get_sale (H := sample_runtime) test_config None None
    (fresh (always (ok_json (JObj {[ "sales" := JArr [] ]})))) =
    (Return (text_result "Error: Either saleId or purchaseKey is required"),
     fresh (always (ok_json (JObj {[ "sales" := JArr [] ]}))))
  /\ edd_get_sale (H := sample_runtime) test_config (Some 123) None
       (fresh (always (ok_json (JObj {[ "sales" := JArr [] ]})))) =
       (Return (text_result "Sale not found"),
        mkWorld (always (ok_json (JObj {[ "sales" := JArr [] ]})))
          ["https://example.com/edd-api/sales/?key=test-key&token=test-token&id=123"]
          []
          [Fetched "https://example.com/edd-api/sales/?key=test-key&token=test-token&id=123"])
  /\ edd_get_customer (H := sample_runtime) test_config None
       (Some "nobody@example.com")
       (fresh (always (ok_json (JObj {[ "customers" := JArr [] ]})))) =
       (Return (text_result "Customer not found"),
        mkWorld (always (ok_json (JObj {[ "customers" := JArr [] ]})))
          ["https://example.com/edd-api/customers/?key=test-key&token=test-token&email=nobody%40example.com"]
          []
          [Fetched "https://example.com/edd-api/customers/?key=test-key&token=test-token&email=nobody%40example.com"]).
Proof.
  split; [| split].
  - refine (proj1 (alternate_key_handlers (H := sample_runtime) test_config
                     _ (fresh (always (ok_json (JObj ∅)))))
              None None _ _); reflexivity.
  - refine (proj1 (proj2 (proj2
              (alternate_key_handlers (H := sample_runtime) test_config _ _)))
              123 None _ _); [discriminate | reflexivity].
  - refine (proj2 (proj2 (proj2 (proj2 (proj2
              (alternate_key_handlers (H := sample_runtime) test_config _ _)))))
              None "nobody@example.com" _ _ _);
      [reflexivity | discriminate | reflexivity].
Defined.

(* ===================================================================== *)
(** * The query parameters of the URLs built *)
(* ===================================================================== *)

Lemma has_name_spec name (p : string * string) :
  reflect (fst p = name) (Url.has_name name p).
Proof. apply String.eqb_spec. Qed.

Lemma get_filter_other name name' (l : list (string * string)) :
  name <> name' ->
  Url.get name' (List.filter (fun p => negb (Url.has_name name p)) l) =
    Url.get name' l.
Proof.
  intros Hne. induction l as [| p rest IH]; [reflexivity |].
  simpl. destruct (has_name_spec name p) as [Hp | Hp]; simpl.
  - destruct (has_name_spec name' p) as [Hp' | Hp']; [congruence | exact IH].
  - destruct (has_name_spec name' p); [reflexivity | exact IH].
Qed.

Lemma get_set_same name value (l : list (string * string)) :
  Url.get name (Url.set name value l) = Some value.
Proof.
  induction l as [| p rest IH]; simpl.
  - by destruct (has_name_spec name (name, value)).
  - destruct (has_name_spec name p) as [Hp | Hp]; simpl.
    + by destruct (has_name_spec name (name, value)).
    + destruct (has_name_spec name p); [contradiction | exact IH].
Qed.

Lemma get_set_other name name' value (l : list (string * string)) :
  name <> name' ->
  Url.get name' (Url.set name value l) = Url.get name' l.
Proof.
  intros Hne. induction l as [| p rest IH]; simpl.
  - by destruct (has_name_spec name' (name, value)).
  - destruct (has_name_spec name p) as [Hp | Hp]; simpl.
    + destruct (has_name_spec name' (name, value)) as [| _]; [contradiction |].
      destruct (has_name_spec name' p) as [| _]; [congruence |].
      by apply get_filter_other.
    + destruct (has_name_spec name' p); [reflexivity | exact IH].
Qed.

(** What the loop over the entries leaves under a name: the text the map
    assigns to it, or else what was there before. *)
Lemma get_set_entries name (params : Params) :
  forall url,
    Url.get name (Url.searchParams (set_entries params url)) =
      match assigned name params with
      | Some text => Some text
      | None => Url.get name (Url.searchParams url)
      end.
Proof.
  induction params as [| entry rest IH]; intros url; [reflexivity |].
  unfold set_entries in *. simpl fold_left. rewrite IH.
  cbn [assigned]. destruct (assigned name rest) as [text |]; [reflexivity |].
  unfold set_entry.
  destruct (snd entry) as [s | n |] eqn:Hvalue; simpl;
    try (destruct (String.eqb_spec (fst entry) name) as [-> | Hne];
         [apply get_set_same | by apply get_set_other]).
  reflexivity.
Qed.

Lemma assigned_absent name (params : Params) :
  ~ In name (map fst params) -> assigned name params = None.
Proof.
  induction params as [| entry rest IH]; intros Hnot; [reflexivity |].
  simpl in Hnot. cbn [assigned]. rewrite IH by tauto.
  destruct (snd entry); try reflexivity;
    destruct (String.eqb_spec (fst entry) name); tauto.
Qed.

Lemma assigned_entry name value (params : Params) :
  NoDup (map fst params) -> In (name, value) params ->
  assigned name params =
    match value with
    | PUndefined => None
    | _ => Some (String_ value)
    end.
Proof.
  induction params as [| entry rest IH]; intros Hnodup Hin; [destruct Hin |].
  simpl in Hnodup. apply NoDup_cons in Hnodup as [Hfresh Hnodup].
  rewrite list_elem_of_In in Hfresh.
  cbn [assigned]. destruct Hin as [-> | Hin].
  - rewrite (assigned_absent name rest) by exact Hfresh. simpl.
    rewrite String.eqb_refl. by destruct value.
  - rewrite (IH Hnodup Hin).
    assert (Hother : fst entry <> name).
    { intros <-. apply Hfresh. apply (in_map fst) in Hin. exact Hin. }
    destruct value; try reflexivity.
    destruct (snd entry); try reflexivity;
      by destruct (String.eqb_spec (fst entry) name).
Qed.

Lemma set_entries_defined (params : Params) :
  forall url, set_entries params url = set_entries (List.filter defined params) url.
Proof.
  induction params as [| [key value] rest IH]; intros url; [reflexivity |].
  unfold set_entries in *. destruct value; simpl; apply IH.
Qed.

(** The credentials sit under their names unless the parameter map
    assigns these names itself. *)
Lemma buildUrl_credentials (this : EDDClientConfig) (endpoint : string)
    (params : Params) :
  assigned "key" params = None -> assigned "token" params = None ->
  Url.get "key" (Url.searchParams (buildUrl_object this endpoint params)) =
    Some (apiKey this)
  /\ Url.get "token" (Url.searchParams (buildUrl_object this endpoint params)) =
       Some (apiToken this).
Proof.
  intros Hkey Htoken. unfold buildUrl_object. cbv zeta.
  rewrite !get_set_entries, Hkey, Htoken. split; reflexivity.
Qed.

(** Every authenticated method but [getSaleByKey] passes a map that
    assigns neither name, so its URL carries both credentials. *)
Lemma authenticated_methods_carry_credentials (this : EDDClientConfig)
    (endpoint : string) (params : Params) :
  (exists options, params = sales_entries options)
  \/ (exists options, params = page_entries options)
  \/ (exists options, params = discounts_entries options)
  \/ (exists options, params = logs_entries options)
  \/ (exists name value,
        params = [(name, value)]
        /\ In name ["id"; "customer"; "email"; "discount"; "type"])
  \/ (exists type startDate endDate,
        params = [("type", PStr (type_name type)); ("date", PStr "range");
                  ("startdate", PStr startDate); ("enddate", PStr endDate)])
  \/ (exists type product, params = [("type", PStr (type_name type));
                                     ("product", product)]) ->
  Url.get "key" (Url.searchParams (buildUrl_object this endpoint params)) =
    Some (apiKey this)
  /\ Url.get "token" (Url.searchParams (buildUrl_object this endpoint params)) =
       Some (apiToken this).
Proof.
  intros Hparams. apply buildUrl_credentials; apply assigned_absent;
    destruct Hparams as
      [[o ->] | [[o ->] | [[o ->] | [[o ->] | [(n & v & -> & Hn) |
        [(t & s & e & ->) | (t & p & ->)]]]]]];
    simpl; try (simpl in Hn); intuition (subst; discriminate).
Qed.

(** The products methods pass maps that name no credential, and their URL
    has no parameter called [key] or [token]. *)
Lemma public_methods_carry_no_credentials (this : EDDClientConfig)
    (options : ProductsOptions) :
  Url.get "key"
    (Url.searchParams
       (buildPublicUrl_object this "products/" (products_entries options))) =
    None
  /\ Url.get "token"
       (Url.searchParams
          (buildPublicUrl_object this "products/" (products_entries options))) =
       None.
Proof.
  unfold buildPublicUrl_object. cbv zeta. rewrite !get_set_entries.
  rewrite !assigned_absent by (simpl; intuition discriminate).
  split; reflexivity.
Qed.

(** C1, where the code departs from it. [getSaleByKey] passes the purchase
    key under the name [key], and setting it replaces the public key set
    just before: the query is [key=<purchase key>&token=<token>] and the
    configured public key is in it only if the purchase key equals it. The
    URL the method fetches with the configuration of the unit tests shows
    it. *)
Theorem getSaleByKey_replaces_public_key `{JsRuntime}
    (this : EDDClientConfig) (purchaseKey : string) :
  Url.searchParams (buildUrl_object this "sales/" [("key", PStr purchaseKey)]) =
    [("key", purchaseKey); ("token", apiToken this)]
  /\ calls (snd (getSaleByKey test_config "abc123"
                   (fresh (always (ok_json (JObj {[ "sales" := JArr [] ]})))))) =
       ["https://example.com/edd-api/sales/?key=abc123&token=test-token"].
Proof. split; reflexivity. Qed.

(** C8, as the code has it. Entries whose value is [undefined] are
    skipped: the URL is the one built from the map without them. Under
    the name of such an entry, the URL of [buildPublicUrl] has no
    parameter, and the URL of [buildUrl] has only what the credentials put
    there, which is nothing unless the name is [key] or [token]. Every
    entry with a defined value is in the query with its value as text. *)
Theorem undefined_entries_are_skipped (this : EDDClientConfig)
    (endpoint : string) (params : Params) :
  NoDup (map fst params) ->
  buildUrl_object this endpoint params =
    buildUrl_object this endpoint (List.filter defined params)
  /\ buildPublicUrl_object this endpoint params =
       buildPublicUrl_object this endpoint (List.filter defined params)
  /\ (forall key, In (key, PUndefined) params ->
        Url.get key
          (Url.searchParams (buildPublicUrl_object this endpoint params)) = None
        /\ Url.get key (Url.searchParams (buildUrl_object this endpoint params)) =
             Url.get key [("key", apiKey this); ("token", apiToken this)])
  /\ (forall key value, In (key, value) params -> value <> PUndefined ->
        Url.get key
          (Url.searchParams (buildPublicUrl_object this endpoint params)) =
          Some (String_ value)
        /\ Url.get key (Url.searchParams (buildUrl_object this endpoint params)) =
             Some (String_ value)).
Proof.
  intros Hnodup. unfold buildUrl_object, buildPublicUrl_object. cbv zeta.
  split; [apply set_entries_defined |].
  split; [apply set_entries_defined |].
  split.
  - intros key Hin. rewrite !get_set_entries.
    rewrite (assigned_entry key PUndefined params Hnodup Hin).
    split; reflexivity.
  - intros key value Hin Hdefined. rewrite !get_set_entries.
    rewrite (assigned_entry key value params Hnodup Hin).
    destruct value; [split; reflexivity .. | contradiction].
Qed.

Lemma undefined_entries_are_skipped_witness :
  buildUrl test_config "customers/" [("number", PNum 5); ("page", PUndefined)] =
    "https://example.com/edd-api/customers/?key=test-key&token=test-token&number=5"
  /\ Url.get "page"
       (Url.searchParams
          (buildUrl_object test_config "customers/"
             [("number", PNum 5); ("page", PUndefined)])) = None
  /\ Url.get "number"
       (Url.searchParams
          (buildUrl_object test_config "customers/"
             [("number", PNum 5); ("page", PUndefined)])) = Some "5".
Proof.
  assert (Hnodup : NoDup (map fst [("number", PNum 5); ("page", PUndefined)])).
  { repeat (constructor; [rewrite list_elem_of_In; simpl; intuition discriminate |]).
    constructor. }
  destruct (undefined_entries_are_skipped test_config "customers/"
              [("number", PNum 5); ("page", PUndefined)] Hnodup)
    as (_ & _ & Hskipped & Hkept).
  split; [reflexivity |]. split.
  - apply (Hskipped "page"). simpl. tauto.
  - apply (Hkept "number" (PNum 5)); [simpl; tauto | discriminate].
Defined.

(** C8 as stated fails for [buildUrl] on a map that holds [undefined]
    under a credential's name: the entry is skipped, yet the URL has a
    parameter of that name, the credential. *)
Lemma undefined_under_credential_name :
  In ("key", PUndefined) [("key", PUndefined)]
  /\ Url.get "key"
       (Url.searchParams
          (buildUrl_object test_config "sales/" [("key", PUndefined)])) =
       Some "test-key"
  /\ buildUrl test_config "sales/" [("key", PUndefined)] =
       "https://example.com/edd-api/sales/?key=test-key&token=test-token".
Proof. split; [left; reflexivity | split; reflexivity]. Qed.

(* ===================================================================== *)
(** * [validateEnv]: the settings it accepts and the ones it reports *)
(* ===================================================================== *)

Lemma endsWith_app (s suffix : string) : endsWith (s +:+ suffix) suffix = true.
Proof.
  induction s as [| c s IH]; simpl.
  - destruct suffix; simpl; [reflexivity |].
    by rewrite Ascii.eqb_refl, String.eqb_refl.
  - rewrite IH. apply orb_true_r.
Qed.

Lemma given_str_spec (value : option string) :
  given_str value = true <-> exists s, value = Some s /\ s <> "".
Proof.
  destruct value as [s |]; simpl.
  - destruct (String.eqb_spec s ""); simpl; split.
    + discriminate.
    + intros (s' & [= <-] & Hne). contradiction.
    + eauto.
    + reflexivity.
  - split; [discriminate | intros (s & [=] & _)].
Qed.

Lemma validateEnv_returns (env : gmap string string)
    (config : EDDClientConfig) :
  validateEnv env = inr config <->
  exists url key token,
    env !! "EDD_API_URL" = Some url /\ url <> ""
    /\ env !! "EDD_API_KEY" = Some key /\ key <> ""
    /\ env !! "EDD_API_TOKEN" = Some token /\ token <> ""
    /\ config = mkConfig (if endsWith url "/" then url else url +:+ "/")
                  key token.
Proof.
  unfold validateEnv, push_missing. cbv zeta.
  destruct (given_str (env !! "EDD_API_URL")) eqn:Hurl;
    destruct (given_str (env !! "EDD_API_KEY")) eqn:Hkey;
    destruct (given_str (env !! "EDD_API_TOKEN")) eqn:Htoken; simpl;
    try (split;
         [ discriminate
         | intros (url & key & token & Eu & Nu & Ek & Nk & Et & Nt & _);
           first
             [ assert (given_str (env !! "EDD_API_URL") = true)
                 by (apply given_str_spec; eauto); congruence
             | assert (given_str (env !! "EDD_API_KEY") = true)
                 by (apply given_str_spec; eauto); congruence
             | assert (given_str (env !! "EDD_API_TOKEN") = true)
                 by (apply given_str_spec; eauto); congruence ] ]).
  apply given_str_spec in Hurl as (url & Eu & Nu).
  apply given_str_spec in Hkey as (key & Ek & Nk).
  apply given_str_spec in Htoken as (token & Et & Nt).
  rewrite Eu, Ek, Et. simpl. split.
  - intros [= <-]. exists url, key, token. repeat split; assumption.
  - intros (url' & key' & token' & [= <-] & _ & [= <-] & _ & [= <-] & _ & ->).
    reflexivity.
Qed.

(** [validateEnv] returns a configuration exactly when the three
    variables are set to non-empty strings; the configuration holds the
    key and the token as they are, and the URL as it is when it ends in a
    slash and with a slash added when it does not. *)
Theorem validateEnv_accepts (env : gmap string string)
    (config : EDDClientConfig) :
  validateEnv env = inr config <->
  exists url key token,
    env !! "EDD_API_URL" = Some url /\ url <> ""
    /\ env !! "EDD_API_KEY" = Some key /\ key <> ""
    /\ env !! "EDD_API_TOKEN" = Some token /\ token <> ""
    /\ config = mkConfig (if endsWith url "/" then url else url +:+ "/")
                  key token.
Proof. apply validateEnv_returns. Qed.

(** The URL of an accepted configuration ends in a slash, and validating
    the settings of an accepted configuration gives it back. *)
Theorem validateEnv_normalizes (env : gmap string string)
    (config : EDDClientConfig) :
  validateEnv env = inr config ->
  endsWith (apiUrl config) "/" = true
  /\ validateEnv (env_of config) = inr config.
Proof.
  intros Hvalid.
  apply validateEnv_returns in Hvalid
    as (url & key & token & _ & Nu & _ & Nk & _ & Nt & ->).
  assert (Hslash : endsWith (if endsWith url "/" then url else url +:+ "/") "/"
                   = true).
  { destruct (endsWith url "/") eqn:Hends; [exact Hends | apply endsWith_app]. }
  split; [exact Hslash |].
  apply validateEnv_returns.
  exists (if endsWith url "/" then url else url +:+ "/"), key, token.
  simpl apiUrl. rewrite Hslash.
  repeat split; try assumption; try reflexivity.
  intros Hempty. rewrite Hempty in Hslash. discriminate.
Qed.

Lemma validateEnv_normalizes_witness :
  endsWith "https://example.com/edd-api/" "/" = true
  /\ validateEnv (env_of test_config) = inr test_config.
Proof.
  apply (validateEnv_normalizes
           {[ "EDD_API_URL" := "https://example.com/edd-api";
              "EDD_API_KEY" := "test-key"; "EDD_API_TOKEN" := "test-token" ]}
           test_config).
  reflexivity.
Defined.



(* ===================================================================== *)
(** * [request] on any network *)
(* ===================================================================== *)

(** Within a budget, either every attempt fails or there is a first one
    that succeeds. *)
Lemma first_success (outcome : nat -> Thrown + JsValue) (budget : nat) :
  (forall i, (i < budget)%nat -> exists t, outcome i = inl t)
  \/ (exists k data,
        (k < budget)%nat /\ outcome k = inr data
        /\ forall i, (i < k)%nat -> exists t, outcome i = inl t).
Proof.
  induction budget as [| n IH]; [left; intros i Hi; lia |].
  destruct IH as [Hall | (k & data & Hk & Hdata & Hbefore)].
  - destruct (outcome n) as [t | data] eqn:Hn.
    + left. intros i Hi.
      destruct (decide (i = n)) as [-> | Hne]; [eauto | apply Hall; lia].
    + right. exists n, data. repeat split; [lia | exact Hn | exact Hall].
  - right. exists k, data. repeat split; [lia | exact Hdata | exact Hbefore].
Qed.

Lemma request_loop_first_success `{JsRuntime} (url : string) (retries : Z)
    (k : nat) :
  forall remaining attempt lastError w data,
    (k < remaining)%nat ->
    attempt + Z.of_nat k < retries + 1 ->
    (forall i, (i < k)%nat ->
       exists t, settle (network w (length (calls w) + i) url) = inl t) ->
    settle (network w (length (calls w) + k) url) = inr data ->
    request_loop url retries remaining attempt lastError w =
      (Return data,
       mkWorld (network w) (calls w ++ repeat url (S k))
         (timers w ++ (backoff <$> seqZ attempt (Z.of_nat k)))
         (events w ++ retried url (seqZ attempt (Z.of_nat k))
            ++ [Fetched url])).
Proof.
  induction k as [| k IH];
    intros remaining attempt lastError w data Hk Hbudget Hfail Hdata;
    (destruct remaining as [| remaining]; [lia |]).
  - rewrite Nat.add_0_r in Hdata.
    rewrite (request_loop_succeeds _ _ _ _ _ _ _ Hdata).
    unfold called. simpl. by rewrite app_nil_r.
  - assert (H0 : (0 < S k)%nat) by lia.
    destruct (Hfail 0%nat H0) as [t0 Ht0]. rewrite Nat.add_0_r in Ht0.
    rewrite (request_loop_fails _ _ _ _ _ _ _ Ht0).
    destruct (Z.ltb_spec attempt retries) as [_ | Hge]; [| lia].
    rewrite (IH remaining (attempt + 1) _ _ data); simpl.
    + rewrite (seqZ_cons attempt) by lia.
      replace (Z.pred (Z.of_nat (S k))) with (Z.of_nat k) by lia.
      rewrite <- !app_assoc. reflexivity.
    + lia.
    + lia.
    + intros i Hi. rewrite length_app. simpl.
      assert (Hi' : (S i < S k)%nat) by lia.
      destruct (Hfail (S i) Hi') as [t Ht]. exists t.
      replace (length (calls w) + 1 + i)%nat
        with (length (calls w) + S i)%nat by lia.
      exact Ht.
    + rewrite length_app. simpl.
      replace (length (calls w) + 1 + k)%nat
        with (length (calls w) + S k)%nat by lia.
      exact Hdata.
Qed.

(** [request] returns the body of the first attempt that succeeds within
    the budget, whatever made the earlier attempts fail: it has then made
    one call per attempt up to that one and waited after each failed
    one, 1 s, 2 s, 4 s and so on. *)
Theorem request_returns_first_success `{JsRuntime}
    (w : World) (url : string) (retries : Z) (k : nat) (data : JsValue) :
  Z.of_nat k < retries ->
  (forall i, (i < k)%nat ->
     exists t, settle (network w (length (calls w) + i) url) = inl t) ->
  settle (network w (length (calls w) + k) url) = inr data ->
  request url retries w =
    (Return data,
     mkWorld (network w) (calls w ++ repeat url (S k))
       (timers w ++ (backoff <$> seqZ 1 (Z.of_nat k)))
       (events w ++ retried url (seqZ 1 (Z.of_nat k)) ++ [Fetched url])).
Proof.
  intros Hk Hfail Hdata. unfold request.
  apply request_loop_first_success; [lia | lia | exact Hfail | exact Hdata].
Qed.

Lemma request_returns_first_success_witness :
  request (H := sample_runtime) "https://example.com/edd-api/products/" 5
    (fresh (fails_then 3 (ok_json (JObj {[ "products" := JArr [] ]})))) =
    (Return (JObj {[ "products" := JArr [] ]}),
     mkWorld (fails_then 3 (ok_json (JObj {[ "products" := JArr [] ]})))
       (repeat "https://example.com/edd-api/products/" 4)
       [1000; 2000; 4000]
       [Fetched "https://example.com/edd-api/products/";
        Waited 1000;
        Fetched "https://example.com/edd-api/products/";
        Waited 2000;
        Fetched "https://example.com/edd-api/products/";
        Waited 4000;
        Fetched "https://example.com/edd-api/products/"]).
Proof.
  apply (request_returns_first_success (H := sample_runtime)
           (fresh (fails_then 3 (ok_json (JObj {[ "products" := JArr [] ]}))))
           "https://example.com/edd-api/products/" 5 3
           (JObj {[ "products" := JArr [] ]})).
  - lia.
  - intros i Hi. exists (ThrownError (Error "Network error")).
    destruct i as [| [| [| i]]]; [reflexivity .. | lia].
  - reflexivity.
Defined.



(** With a budget of zero or less [request] calls nothing and throws the
    generic error. *)
Theorem request_without_budget `{JsRuntime}
    (w : World) (url : string) (retries : Z) :
  retries <= 0 ->
  request url retries w =
    (Throw (ThrownError (Error "Request failed after retries")), w).
Proof. apply request_no_attempt. Qed.

Lemma request_without_budget_witness :
  request (H := sample_runtime) "u" 0 (fresh (always (ok_json (JObj ∅)))) =
    (Throw (ThrownError (Error "Request failed after retries")),
     fresh (always (ok_json (JObj ∅)))).
Proof.
  apply (request_without_budget (H := sample_runtime)
           (fresh (always (ok_json (JObj ∅)))) "u" 0).
  lia.
Defined.

Lemma total_app (l1 l2 : list Z) : total (l1 ++ l2) = total l1 + total l2.
Proof.
  unfold total. induction l1 as [| x l1 IH]; simpl; [reflexivity | lia].
Qed.

Lemma total_backoffs (n : nat) :
  total (backoff <$> seqZ 1 (Z.of_nat n)) = (2 ^ Z.of_nat n - 1) * 1000.
Proof.
  induction n as [| n IH]; [reflexivity |].
  rewrite seqZ_S, fmap_app, total_app, IH. unfold backoff, total. simpl foldr.
  replace (1 + Z.of_nat n - 1) with (Z.of_nat n) by lia.
  rewrite Nat2Z.inj_succ, Z.pow_succ_r by lia. lia.
Qed.

(** What a run leaves in the world: some number of calls, all of the URL
    given, and one delay after each call but the last. *)
Lemma request_trace `{JsRuntime} (w : World) (url : string) (retries : Z) :
  1 <= retries ->
  exists n,
    (1 <= n <= Z.to_nat retries)%nat
    /\ snd (request url retries w) =
         mkWorld (network w) (calls w ++ repeat url n)
           (timers w ++ (backoff <$> seqZ 1 (Z.of_nat n - 1)))
           (events w ++ retried url (seqZ 1 (Z.of_nat n - 1))
              ++ [Fetched url])
    /\ forall t, fst (request url retries w) = Throw t ->
                 exists e, t = ThrownError e.
Proof.
  intros Hpos.
  destruct (first_success
              (fun i => settle (network w (length (calls w) + i) url))
              (Z.to_nat retries))
    as [Hall | (k & data & Hk & Hdata & Hbefore)].
  - destruct (request_all_fail w url retries Hpos Hall) as (t & _ & Hrun).
    exists (Z.to_nat retries). rewrite Hrun. simpl.
    split; [lia |]. split.
    + by replace (Z.of_nat (Z.to_nat retries) - 1) with (retries - 1) by lia.
    + intros t' [= <-]. eauto.
  - unfold request.
    rewrite (request_loop_first_success url retries k (Z.to_nat retries) 1
               None w data Hk ltac:(lia) Hbefore Hdata).
    exists (S k). simpl fst. simpl snd. split; [lia |]. split.
    + by replace (Z.of_nat (S k) - 1) with (Z.of_nat k) by lia.
    + discriminate.
Qed.

(** Whatever the network answers, [request] with a budget of at least one
    makes between one call and [retries] calls, every one of them for the
    URL it was given, and between two calls in a row it awaits one delay,
    of [2^(k-1)] seconds after the [k]-th call; the last call is followed
    by no delay. *)
Theorem request_calls_and_delays `{JsRuntime}
    (w : World) (url : string) (retries : Z) :
  1 <= retries ->
  exists n,
    (1 <= n <= Z.to_nat retries)%nat
    /\ snd (request url retries w) =
         mkWorld (network w) (calls w ++ repeat url n)
           (timers w ++ (backoff <$> seqZ 1 (Z.of_nat n - 1)))
           (events w
              ++ flat_map (fun k => [Fetched url; Waited (2 ^ (k - 1) * 1000)])
                   (seqZ 1 (Z.of_nat n - 1))
              ++ [Fetched url]).
Proof.
  intros Hpos. destruct (request_trace w url retries Hpos) as (n & Hn & Hw & _).
  exists n. split; [exact Hn | exact Hw].
Qed.

Lemma request_calls_and_delays_witness :
  snd (request (H := sample_runtime) "u" default_retries
         (fresh (fails_then 1 (ok_json (JObj ∅))))) =
    mkWorld (fails_then 1 (ok_json (JObj ∅))) ["u"; "u"] [1000]
      [Fetched "u"; Waited 1000; Fetched "u"].
Proof.
  destruct (request_calls_and_delays (H := sample_runtime)
              (fresh (fails_then 1 (ok_json (JObj ∅)))) "u" default_retries)
    as (n & Hn & Hw); [unfold default_retries; lia |].
  destruct n as [| [| [| [| n]]]];
    [ unfold default_retries in Hn; simpl in Hn; lia
    | apply (f_equal calls) in Hw; vm_compute in Hw; discriminate
    | exact Hw
    | apply (f_equal calls) in Hw; vm_compute in Hw; discriminate
    | unfold default_retries in Hn; simpl in Hn; lia ].
Defined.

(** The delays that one [request] awaits add up to at most
    [2^(retries-1) - 1] seconds: 3 s with the default budget. *)
Theorem request_total_delay `{JsRuntime}
    (w : World) (url : string) (retries : Z) :
  1 <= retries ->
  exists delays,
    timers (snd (request url retries w)) = (timers w ++ delays)%list
    /\ 0 <= total delays <= (2 ^ (retries - 1) - 1) * 1000.
Proof.
  intros Hpos. destruct (request_trace w url retries Hpos) as (n & Hn & Hw & _).
  exists (backoff <$> seqZ 1 (Z.of_nat n - 1)). rewrite Hw. simpl.
  split; [reflexivity |].
  replace (Z.of_nat n - 1) with (Z.of_nat (n - 1)) by lia.
  rewrite total_backoffs.
  assert (Hmono : 2 ^ Z.of_nat (n - 1) <= 2 ^ (retries - 1))
    by (apply Z.pow_le_mono_r; lia).
  assert (Hone : 1 <= 2 ^ Z.of_nat (n - 1))
    by (apply (Z.pow_le_mono_r 2 0); lia).
  lia.
Qed.

Lemma request_total_delay_witness :
  exists delays,
    timers (snd (request (H := sample_runtime) "u" default_retries
                   (fresh (always (Rejected (ThrownError (Error "down"))))))) =
      (timers (fresh (always (Rejected (ThrownError (Error "down")))))
         ++ delays)%list
    /\ 0 <= total delays <= (2 ^ (default_retries - 1) - 1) * 1000.
Proof.
  apply (request_total_delay (H := sample_runtime)
           (fresh (always (Rejected (ThrownError (Error "down")))))
           "u" default_retries).
  unfold default_retries. lia.
Defined.

(** What [request] throws is always an [Error] object, also when the
    transport rejected with something else. *)
Theorem request_throws_errors_only `{JsRuntime}
    (w w' : World) (url : string) (retries : Z) (t : Thrown) :
  request url retries w = (Throw t, w') ->
  exists e, t = ThrownError e.
Proof.
  intros Hrun. destruct (Z_le_gt_dec retries 0) as [Hle | Hgt].
  - rewrite (request_no_attempt w url retries Hle) in Hrun.
    injection Hrun as <- _. eauto.
  - destruct (request_trace w url retries ltac:(lia)) as (_ & _ & _ & Hthrown).
    apply Hthrown. by rewrite Hrun.
Qed.

Lemma request_throws_errors_only_witness :
  exists e, ThrownError (Error "socket hang up") = ThrownError e.
Proof.
  apply (request_throws_errors_only (H := sample_runtime)
           (fresh (always (Rejected (ThrownValue (JStr "socket hang up")))))
           (mkWorld (always (Rejected (ThrownValue (JStr "socket hang up"))))
              ["u"; "u"; "u"] [1000; 2000]
                [Fetched "u";
                 Waited 1000;
                 Fetched "u";
                 Waited 2000;
                 Fetched "u"])
           "u" default_retries).
  reflexivity.
Defined.

(** A body that decodes to [null] makes the attempt fail, on reading its
    [error] property: when every attempt answers so, [request] throws
    that [TypeError] after the calls of its budget. *)
Theorem request_rejects_null_body `{JsRuntime}
    (w : World) (url : string) (retries : Z) :
  1 <= retries ->
  (forall i, (i < Z.to_nat retries)%nat ->
     exists r, network w (length (calls w) + i) url = Resolved r
               /\ ok r = true /\ json r = inr JNull) ->
  request url retries w =
    (Throw (ThrownError
              (TypeError "Cannot read properties of null (reading 'error')")),
     mkWorld (network w) (calls w ++ repeat url (Z.to_nat retries))
       (timers w ++ (backoff <$> seqZ 1 (retries - 1)))
       (events w ++ retried url (seqZ 1 (retries - 1)) ++ [Fetched url])).
Proof.
  intros Hpos Hall.
  assert (Hsettle : forall i, (i < Z.to_nat retries)%nat ->
            settle (network w (length (calls w) + i) url) =
              inl (ThrownError
                     (TypeError
                        "Cannot read properties of null (reading 'error')"))).
  { intros i Hi. destruct (Hall i Hi) as (r & Hr & Hok & Hjson).
    unfold settle. by rewrite Hr, Hok, Hjson. }
  destruct (request_all_fail w url retries Hpos) as (t & Ht & Hrun).
  { intros i Hi. eexists. by apply Hsettle. }
  rewrite Hsettle in Ht by lia. injection Ht as <-. exact Hrun.
Qed.

Lemma request_rejects_null_body_witness :
  request (H := sample_runtime) "u" default_retries
    (fresh (always (ok_json JNull))) =
    (Throw (ThrownError
              (TypeError "Cannot read properties of null (reading 'error')")),
     mkWorld (always (ok_json JNull)) ["u"; "u"; "u"] [1000; 2000]
       [Fetched "u";
        Waited 1000;
        Fetched "u";
        Waited 2000;
        Fetched "u"]).
Proof.
  apply (request_rejects_null_body (H := sample_runtime)
           (fresh (always (ok_json JNull))) "u" default_retries).
  - unfold default_retries. lia.
  - intros i _. eexists. repeat split; reflexivity.
Defined.

(** An [error] property that is absent or falsy (an empty string, [0],
    [false], [null]) is no error: a 2xx answer with such an object is
    returned as it is from the first attempt, after one call and no
    delay. *)
Theorem request_accepts_falsy_error `{JsRuntime}
    (w : World) (url : string) (retries : Z) (r : Response)
    (body : gmap string JsValue) :
  1 <= retries ->
  network w (length (calls w)) url = Resolved r ->
  ok r = true ->
  json r = inr (JObj body) ->
  truthy (default JUndefined (body !! "error")) = false ->
  request url retries w = (Return (JObj body), called url w).
Proof.
  intros Hpos Hr Hok Hjson Hfalsy. unfold request.
  destruct (Z.to_nat retries) as [| remaining] eqn:Hn; [lia |].
  apply request_loop_succeeds.
  unfold settle. rewrite Hr, Hok, Hjson. simpl. by rewrite Hfalsy.
Qed.

Lemma request_accepts_falsy_error_witness :
  request (H := sample_runtime) "u" default_retries
    (fresh (always (ok_json (JObj {[ "error" := JStr "" ]})))) =
    (Return (JObj {[ "error" := JStr "" ]}),
     called "u" (fresh (always (ok_json (JObj {[ "error" := JStr "" ]}))))).
Proof.
  apply (request_accepts_falsy_error (H := sample_runtime)
           (fresh (always (ok_json (JObj {[ "error" := JStr "" ]}))))
           "u" default_retries
           (mkResponse 200 "OK" (inr (JObj {[ "error" := JStr "" ]})))
           {[ "error" := JStr "" ]});
    [unfold default_retries; lia | reflexivity ..].
Defined.

(* ===================================================================== *)
(** * The query that [buildUrl] and [buildPublicUrl] build *)
(* ===================================================================== *)

Lemma set_fresh name value (l : list (string * string)) :
  ~ In name (map fst l) -> Url.set name value l = (l ++ [(name, value)])%list.
Proof.
  induction l as [| p rest IH]; intros Hfresh; [reflexivity |].
  simpl in *. destruct (has_name_spec name p) as [Hp | Hp]; [tauto |].
  rewrite IH by tauto. reflexivity.
Qed.

Lemma filter_other_names name (l : list (string * string)) :
  ~ In name (map fst l) ->
  List.filter (fun p => negb (Url.has_name name p)) l = l.
Proof.
  induction l as [| p rest IH]; intros Hfresh; [reflexivity |].
  simpl in *. destruct (has_name_spec name p) as [Hp | Hp]; [tauto |].
  simpl. rewrite IH by tauto. reflexivity.
Qed.

Lemma set_names name value x (l : list (string * string)) :
  NoDup (map fst l) ->
  In x (map fst (Url.set name value l)) -> x = name \/ In x (map fst l).
Proof.
  induction l as [| p rest IH]; intros Hnodup Hin; simpl in *.
  - destruct Hin as [<- |]; tauto.
  - apply NoDup_cons in Hnodup as [Hfresh Hnodup].
    rewrite list_elem_of_In in Hfresh.
    destruct (has_name_spec name p) as [Hp | Hp]; simpl in Hin.
    + rewrite filter_other_names in Hin by (by rewrite <- Hp).
      destruct Hin as [<- | Hin]; tauto.
    + destruct Hin as [<- | Hin]; [tauto |].
      destruct (IH Hnodup Hin); tauto.
Qed.

Lemma set_NoDup name value (l : list (string * string)) :
  NoDup (map fst l) -> NoDup (map fst (Url.set name value l)).
Proof.
  induction l as [| p rest IH]; intros Hnodup; simpl.
  - apply NoDup_singleton.
  - pose proof Hnodup as Hall. simpl in Hnodup.
    apply NoDup_cons in Hnodup as [Hfresh Hnodup].
    rewrite list_elem_of_In in Hfresh.
    destruct (has_name_spec name p) as [Hp | Hp]; simpl.
    + rewrite filter_other_names by (by rewrite <- Hp).
      rewrite <- Hp. exact Hall.
    + apply NoDup_cons. split; [| by apply IH].
      rewrite list_elem_of_In. intros Hin.
      destruct (set_names _ _ _ _ Hnodup Hin); [congruence | tauto].
Qed.

Lemma set_entries_NoDup (params : Params) :
  forall url,
    NoDup (map fst (Url.searchParams url)) ->
    NoDup (map fst (Url.searchParams (set_entries params url))).
Proof.
  induction params as [| [key value] rest IH]; intros url Hnodup;
    [exact Hnodup |].
  unfold set_entries in *. simpl fold_left. apply IH.
  destruct value; simpl; try exact Hnodup; by apply set_NoDup.
Qed.

Lemma set_entries_fresh (params : Params) :
  forall url,
    NoDup (map fst params) ->
    (forall name, In name (map fst params) ->
                  ~ In name (map fst (Url.searchParams url))) ->
    Url.searchParams (set_entries params url) =
      (Url.searchParams url ++ (coerced <$> List.filter defined params))%list.
Proof.
  induction params as [| [key value] rest IH]; intros url Hnodup Hfresh.
  - simpl. by rewrite app_nil_r.
  - simpl in Hnodup. apply NoDup_cons in Hnodup as [Hkey Hnodup].
    rewrite list_elem_of_In in Hkey.
    assert (Hrest : forall name, In name (map fst rest) ->
                      ~ In name (map fst (Url.searchParams url)))
      by (intros name Hin; apply Hfresh; simpl; tauto).
    assert (Hset : forall text,
              Url.searchParams
                (set_entries rest (Url.searchParams_set key text url)) =
                (Url.searchParams url
                 ++ (key, text) :: (coerced <$> List.filter defined rest))%list).
    { intros text. rewrite IH; simpl.
      - rewrite set_fresh by (apply Hfresh; simpl; tauto).
        by rewrite <- app_assoc.
      - exact Hnodup.
      - intros name Hin.
        rewrite set_fresh by (apply Hfresh; simpl; tauto).
        rewrite map_app, in_app_iff. simpl.
        intros [Hold | [<- | []]]; [by apply (Hrest name) | tauto]. }
    unfold set_entries in *. destruct value; simpl.
    + apply Hset.
    + apply Hset.
    + by apply IH.
Qed.

(** The names of the query of a built URL are distinct, whatever the
    parameter map. *)
Theorem built_query_names_distinct (this : EDDClientConfig)
    (endpoint : string) (params : Params) :
  NoDup (map fst (Url.searchParams (buildUrl_object this endpoint params)))
  /\ NoDup (map fst
              (Url.searchParams (buildPublicUrl_object this endpoint params))).
Proof.
  unfold buildUrl_object, buildPublicUrl_object. cbv zeta.
  split; apply set_entries_NoDup; simpl.
  - apply NoDup_cons. split; [| apply NoDup_singleton].
    rewrite list_elem_of_In. simpl. intuition discriminate.
  - apply NoDup_nil_2.
Qed.

(** For a parameter map that names no credential, the query of [buildUrl]
    is the public key, the token, and then the entries with a defined
    value, in the order of the map and with their values as text; the
    query of [buildPublicUrl] is these entries alone. *)
Theorem built_query_exact (this : EDDClientConfig) (endpoint : string)
    (params : Params) :
  NoDup (map fst params) ->
  ~ In "key" (map fst params) ->
  ~ In "token" (map fst params) ->
  Url.searchParams (buildUrl_object this endpoint params) =
    ("key", apiKey this) :: ("token", apiToken this)
      :: (coerced <$> List.filter defined params)
  /\ Url.searchParams (buildPublicUrl_object this endpoint params) =
       coerced <$> List.filter defined params.
Proof.
  intros Hnodup Hkey Htoken. unfold buildUrl_object, buildPublicUrl_object.
  cbv zeta. split.
  - rewrite set_entries_fresh; [reflexivity | exact Hnodup |].
    simpl. intros name Hin [<- | [<- | []]]; tauto.
  - rewrite set_entries_fresh; [reflexivity | exact Hnodup |].
    simpl. tauto.
Qed.

Lemma built_query_exact_witness :
  Url.searchParams
    (buildUrl_object test_config "sales/"
       (sales_entries {| s_number := Some 10; s_page := None;
                         s_email := Some "a@b.c"; s_startdate := None;
                         s_enddate := None |})) =
    [("key", "test-key"); ("token", "test-token"); ("number", "10");
     ("email", "a@b.c")]
  /\ Url.searchParams
       (buildPublicUrl_object test_config "sales/"
          (sales_entries {| s_number := Some 10; s_page := None;
                            s_email := Some "a@b.c"; s_startdate := None;
                            s_enddate := None |})) =
       [("number", "10"); ("email", "a@b.c")].
Proof.
  apply (built_query_exact test_config "sales/"
           (sales_entries {| s_number := Some 10; s_page := None;
                             s_email := Some "a@b.c"; s_startdate := None;
                             s_enddate := None |})).
  - repeat (constructor;
            [rewrite list_elem_of_In; simpl; intuition discriminate |]).
    constructor.
  - simpl. intuition discriminate.
  - simpl. intuition discriminate.
Defined.

(** With no defined value in the parameter map, [buildPublicUrl] sets no
    query parameter: the query of its URL is empty. *)
Theorem buildPublicUrl_without_parameters (this : EDDClientConfig)
    (endpoint : string) (params : Params) :
  (forall entry, In entry params -> snd entry = PUndefined) ->
  Url.searchParams (buildPublicUrl_object this endpoint params) = [].
Proof.
  intros Hall. unfold buildPublicUrl_object. cbv zeta.
  rewrite set_entries_defined.
  replace (List.filter defined params) with (@nil (string * ParamValue));
    [reflexivity |].
  induction params as [| entry rest IH]; [reflexivity |].
  simpl. unfold defined at 1. rewrite (Hall entry) by (left; reflexivity).
  apply IH. intros entry' Hin. apply Hall. by right.
Qed.

Lemma buildPublicUrl_without_parameters_witness :
  Url.searchParams
    (buildPublicUrl_object test_config "products/"
       (products_entries {| p_number := None; p_product := None |})) = [].
Proof.
  apply (buildPublicUrl_without_parameters test_config "products/"
           (products_entries {| p_number := None; p_product := None |})).
  intros entry [<- | [<- | []]]; reflexivity.
Defined.

(* ===================================================================== *)
(** * The endpoint methods on any response *)
(* ===================================================================== *)

(** After a successful response whose envelope field is an array, every
    list method returns that array as it is, whatever its length. *)
Theorem lists_return_the_envelope_array `{JsRuntime}
    (this : EDDClientConfig) (w w' : World) (response : JsValue)
    (records : list JsValue) :
  (forall options,
      request (buildPublicUrl this "products/" (products_entries options))
        default_retries w = (Return response, w') ->
      js_get response "products" = inr (JArr records) ->
      listProducts this options w = (Return (JArr records), w'))
  /\ (forall options,
        request (buildUrl this "sales/" (sales_entries options))
          default_retries w = (Return response, w') ->
        js_get response "sales" = inr (JArr records) ->
        listSales this options w = (Return (JArr records), w'))
  /\ (forall options,
        request (buildUrl this "customers/" (page_entries options))
          default_retries w = (Return response, w') ->
        js_get response "customers" = inr (JArr records) ->
        listCustomers this options w = (Return (JArr records), w'))
  /\ (forall options,
        request (buildUrl this "discounts/" (discounts_entries options))
          default_retries w = (Return response, w') ->
        js_get response "discounts" = inr (JArr records) ->
        listDiscounts this options w = (Return (JArr records), w'))
  /\ (forall options,
        request (buildUrl this "file-download-logs/" (logs_entries options))
          default_retries w = (Return response, w') ->
        js_get response "download_logs" = inr (JArr records) ->
        getDownloadLogs this options w = (Return (JArr records), w')).
Proof.
  repeat split; intros options Hrequest Hfield.
  - unfold listProducts. after_request Hrequest. by rewrite Hfield.
  - unfold listSales. after_request Hrequest. by rewrite Hfield.
  - unfold listCustomers. after_request Hrequest. by rewrite Hfield.
  - unfold listDiscounts. after_request Hrequest. by rewrite Hfield.
  - unfold getDownloadLogs. after_request Hrequest. by rewrite Hfield.
Qed.

Lemma lists_return_the_envelope_array_witness :
  listCustomers (H := sample_runtime) test_config
    {| g_number := Some 5; g_page := None |}
    (fresh (always (ok_json
       (JObj {[ "customers" := JArr [JStr "first"; JStr "second"] ]})))) =
    (Return (JArr [JStr "first"; JStr "second"]),
     mkWorld
       (always (ok_json
          (JObj {[ "customers" := JArr [JStr "first"; JStr "second"] ]})))
       ["https://example.com/edd-api/customers/?key=test-key&token=test-token&number=5"]
       []
       [Fetched "https://example.com/edd-api/customers/?key=test-key&token=test-token&number=5"]).
Proof.
  refine (proj1 (proj2 (proj2
    (lists_return_the_envelope_array (H := sample_runtime) test_config _ _
       (JObj {[ "customers" := JArr [JStr "first"; JStr "second"] ]})
       [JStr "first"; JStr "second"]))) _ _ _);
    reflexivity.
Defined.

(** After a successful response whose envelope field is an array that
    starts with a truthy record, every lookup method returns that first
    record and ignores the others. *)
Theorem lookups_return_the_first_record `{JsRuntime}
    (this : EDDClientConfig) (w w' : World) (response first : JsValue)
    (others : list JsValue) :
  truthy first = true ->
  (forall productId,
      request
        (buildPublicUrl this "products/"
           (products_entries
              {| p_number := None; p_product := Some productId |}))
        default_retries w = (Return response, w') ->
      js_get response "products" = inr (JArr (first :: others)) ->
      getProduct this productId w = (Return first, w'))
  /\ (forall saleId,
        request (buildUrl this "sales/" [("id", PNum saleId)])
          default_retries w = (Return response, w') ->
        js_get response "sales" = inr (JArr (first :: others)) ->
        getSaleById this saleId w = (Return first, w'))
  /\ (forall purchaseKey,
        request (buildUrl this "sales/" [("key", PStr purchaseKey)])
          default_retries w = (Return response, w') ->
        js_get response "sales" = inr (JArr (first :: others)) ->
        getSaleByKey this purchaseKey w = (Return first, w'))
  /\ (forall customerId,
        request (buildUrl this "customers/" [("customer", PNum customerId)])
          default_retries w = (Return response, w') ->
        js_get response "customers" = inr (JArr (first :: others)) ->
        getCustomerById this customerId w = (Return first, w'))
  /\ (forall email,
        request (buildUrl this "customers/" [("email", PStr email)])
          default_retries w = (Return response, w') ->
        js_get response "customers" = inr (JArr (first :: others)) ->
        getCustomerByEmail this email w = (Return first, w'))
  /\ (forall discountId,
        request (buildUrl this "discounts/" [("discount", PNum discountId)])
          default_retries w = (Return response, w') ->
        js_get response "discounts" = inr (JArr (first :: others)) ->
        getDiscount this discountId w = (Return first, w')).
Proof.
  intros Htruthy. repeat split; intros arg Hrequest Hfield.
  - unfold getProduct, listProducts. unfold bind at 1.
    after_request Hrequest. rewrite Hfield. simpl.
    unfold bind, ret, js_or. simpl. by rewrite Htruthy.
  - unfold getSaleById. after_request Hrequest. rewrite Hfield.
    unfold bind, ret, js_or. simpl. by rewrite Htruthy.
  - unfold getSaleByKey. after_request Hrequest. rewrite Hfield.
    unfold bind, ret, js_or. simpl. by rewrite Htruthy.
  - unfold getCustomerById. after_request Hrequest. rewrite Hfield.
    unfold bind, ret, js_or. simpl. by rewrite Htruthy.
  - unfold getCustomerByEmail. after_request Hrequest. rewrite Hfield.
    unfold bind, ret, js_or. simpl. by rewrite Htruthy.
  - unfold getDiscount. after_request Hrequest. rewrite Hfield.
    unfold bind, ret, js_or. simpl. by rewrite Htruthy.
Qed.

Lemma lookups_return_the_first_record_witness :
  getCustomerByEmail (H := sample_runtime) test_config "found@example.com"
    (fresh (always (ok_json
       (JObj {[ "customers" := JArr [JObj ∅; JStr "second"] ]})))) =
    (Return (JObj ∅),
     mkWorld
       (always (ok_json
          (JObj {[ "customers" := JArr [JObj ∅; JStr "second"] ]})))
       ["https://example.com/edd-api/customers/?key=test-key&token=test-token&email=found%40example.com"]
       []
       [Fetched "https://example.com/edd-api/customers/?key=test-key&token=test-token&email=found%40example.com"]).
Proof.
  refine (proj1 (proj2 (proj2 (proj2 (proj2
    (lookups_return_the_first_record (H := sample_runtime) test_config _ _
       (JObj {[ "customers" := JArr [JObj ∅; JStr "second"] ]})
       (JObj ∅) [JStr "second"] _))))) _ _ _);
    reflexivity.
Defined.

(** [getStats] on a response that is no object: an array gives the
    requested type mapped to [undefined], and a number, a string or a
    boolean makes the method throw a [TypeError]. *)
Theorem getStats_on_other_responses `{JsRuntime}
    (this : EDDClientConfig) (type : StatsType) (w w' : World)
    (response : JsValue) :
  request (buildUrl this "stats/" [("type", PStr (type_name type))])
    default_retries w = (Return response, w') ->
  ((exists elements, response = JArr elements) ->
   getStats this type w =
     (Return (JObj {[ type_name type := JUndefined ]}), w'))
  /\ ((exists q, response = JNum q) \/ (exists s, response = JStr s)
      \/ (exists b, response = JBool b) ->
      exists message,
        getStats this type w =
          (Throw (ThrownError (TypeError message)), w')).
Proof.
  intros Hrequest. split.
  - intros [elements ->]. unfold getStats. after_request Hrequest. reflexivity.
  - intros [[q ->] | [[s ->] | [b ->]]]; unfold getStats;
      after_request Hrequest; eexists; reflexivity.
Qed.

Lemma getStats_on_other_responses_witness :
  getStats (H := sample_runtime) test_config sales
    (fresh (always (ok_json (JArr [])))) =
    (Return (JObj {[ "sales" := JUndefined ]}),
     mkWorld (always (ok_json (JArr [])))
       ["https://example.com/edd-api/stats/?key=test-key&token=test-token&type=sales"]
       []
       [Fetched "https://example.com/edd-api/stats/?key=test-key&token=test-token&type=sales"]).
Proof.
  refine (proj1 (getStats_on_other_responses (H := sample_runtime) test_config
                   sales _ _ (JArr []) _) _);
    [reflexivity | by exists []].
Defined.

(** A date-range response that holds neither [request_speed] nor [totals]
    is returned as it is. *)
Theorem getStatsByDateRange_keeps_plain_response `{JsRuntime}
    (this : EDDClientConfig) (type : StatsType) (startDate endDate : string)
    (w w' : World) (response : gmap string JsValue) :
  request
    (buildUrl this "stats/"
       [("type", PStr (type_name type)); ("date", PStr "range");
        ("startdate", PStr startDate); ("enddate", PStr endDate)])
    default_retries w = (Return (JObj response), w') ->
  response !! "request_speed" = None ->
  response !! "totals" = None ->
  getStatsByDateRange this type startDate endDate w =
    (Return (JObj response), w').
Proof.
  intros Hrequest Hspeed Htotals. unfold getStatsByDateRange.
  after_request Hrequest. simpl.
  rewrite (delete_id response "totals") by exact Htotals.
  rewrite (delete_id response "request_speed") by exact Hspeed.
  reflexivity.
Qed.

Lemma getStatsByDateRange_keeps_plain_response_witness :
  getStatsByDateRange (H := sample_runtime) test_config sales
    "20250101" "20250103" (fresh (always (ok_json (JObj range_dates)))) =
    (Return (JObj range_dates),
     mkWorld (always (ok_json (JObj range_dates)))
       ["https://example.com/edd-api/stats/?key=test-key&token=test-token&type=sales&date=range&startdate=20250101&enddate=20250103"]
       []
       [Fetched "https://example.com/edd-api/stats/?key=test-key&token=test-token&type=sales&date=range&startdate=20250101&enddate=20250103"]).
Proof.
  apply (getStatsByDateRange_keeps_plain_response (H := sample_runtime)
           test_config sales "20250101" "20250103"
           (fresh (always (ok_json (JObj range_dates))))
           _ range_dates);
    reflexivity.
Defined.

Lemma product_stats_In (entries : list (string * JsValue)) name value :
  In (mkStat name value) (product_stats entries) <->
  name <> "request_speed" /\ In (name, JNum value) entries.
Proof.
  induction entries as [| [key v] rest IH]; simpl; [tauto |].
  destruct v; simpl; try (rewrite IH; intuition congruence).
  destruct (String.eqb_spec key "request_speed") as [-> | Hkey]; simpl.
  - rewrite IH. intuition congruence.
  - rewrite IH. split.
    + intros [[= <- <-] | [Hname Hin]]; tauto.
    + intros [Hname [[= <- <-] | Hin]]; tauto.
Qed.

Lemma product_stats_filter (entries : list (string * JsValue)) :
  as_entry <$> product_stats entries =
    List.filter
      (fun entry =>
         is_number (snd entry) && negb (String.eqb (fst entry) "request_speed"))
      entries.
Proof.
  induction entries as [| [key value] rest IH]; [reflexivity |].
  destruct value; simpl; try exact IH.
  destruct (String.eqb key "request_speed"); simpl; [exact IH |].
  rewrite <- IH. reflexivity.
Qed.

Lemma map_fst_fmap {A B} (l : list (A * B)) : map fst l = l.*1.
Proof. induction l as [| x l IH]; simpl; [reflexivity | f_equal; exact IH]. Qed.

Lemma NoDup_names_filter (keep : string * JsValue -> bool)
    (entries : list (string * JsValue)) :
  NoDup (map fst entries) -> NoDup (map fst (List.filter keep entries)).
Proof.
  induction entries as [| entry rest IH]; intros Hnodup; [exact Hnodup |].
  simpl in *. apply NoDup_cons in Hnodup as [Hfresh Hnodup].
  destruct (keep entry); simpl; [| by apply IH].
  apply NoDup_cons. split; [| by apply IH].
  rewrite list_elem_of_In in *. intros Hin. apply Hfresh.
  apply in_map_iff in Hin as (entry' & Hname & Hin).
  apply filter_In in Hin as [Hin _].
  apply in_map_iff. eauto.
Qed.

(** After a successful response that is an object, the pairs that
    [getStatsByProduct] returns are, read as fields, exactly the fields
    that the engine enumerates, in that order, without those that hold no
    number and without [request_speed]. When the enumeration lists each
    field of the response once, each such field gives one pair and the
    names of the pairs are distinct; a numeric [totals] field is among
    them. *)
Theorem getStatsByProduct_keeps_numbers `{JsRuntime}
    (own_entries : gmap string JsValue -> list (string * JsValue))
    (this : EDDClientConfig) (type : StatsType) (productId : option Z)
    (w w' : World) (response : gmap string JsValue) :
  NoDup (map fst (own_entries response)) ->
  (forall name value,
      In (name, value) (own_entries response) <-> response !! name = Some value) ->
  request (getStatsByProduct_url this type productId) default_retries w =
    (Return (JObj response), w') ->
  exists results,
    getStatsByProduct own_entries this type productId w = (Return results, w')
    /\ as_entry <$> results =
         List.filter
           (fun entry =>
              is_number (snd entry)
              && negb (String.eqb (fst entry) "request_speed"))
           (own_entries response)
    /\ NoDup (map stat_name results)
    /\ forall name value,
         In (mkStat name value) results <->
         name <> "request_speed" /\ response !! name = Some (JNum value).
Proof.
  intros Hnodup Hentries Hrequest.
  exists (product_stats (own_entries response)).
  split; [| split; [| split]].
  - unfold getStatsByProduct. after_request Hrequest. reflexivity.
  - apply product_stats_filter.
  - replace (map stat_name (product_stats (own_entries response)))
      with (map fst (as_entry <$> product_stats (own_entries response))).
    + rewrite product_stats_filter. by apply NoDup_names_filter.
    + induction (product_stats (own_entries response)) as [| stat rest IH];
        simpl; [reflexivity | by rewrite <- IH].
  - intros name value. rewrite product_stats_In, Hentries. reflexivity.
Qed.

Lemma getStatsByProduct_keeps_numbers_witness :
  getStatsByProduct (H := sample_runtime) map_to_list test_config earnings None
    (fresh (always (ok_json (JObj product_response)))) =
    (Return [mkStat "WP Fusion" 1000; mkStat "totals" 1500],
     mkWorld (always (ok_json (JObj product_response)))
       ["https://example.com/edd-api/stats/?key=test-key&token=test-token&type=earnings&product=all"]
       []
       [Fetched "https://example.com/edd-api/stats/?key=test-key&token=test-token&type=earnings&product=all"]).
Proof.
  destruct (getStatsByProduct_keeps_numbers (H := sample_runtime) map_to_list
              test_config earnings None
              (fresh (always (ok_json (JObj product_response))))
              (mkWorld (always (ok_json (JObj product_response)))
                 ["https://example.com/edd-api/stats/?key=test-key&token=test-token&type=earnings&product=all"]
                 []
                 [Fetched "https://example.com/edd-api/stats/?key=test-key&token=test-token&type=earnings&product=all"])
              product_response)
    as (results & Hrun & Hfilter & _).
  - rewrite map_fst_fmap. apply NoDup_fst_map_to_list.
  - intros name value. rewrite <- list_elem_of_In.
    apply (elem_of_map_to_list product_response name value).
  - reflexivity.
  - rewrite Hrun. clear Hrun. f_equal. f_equal.
    assert (Hfields :
              List.filter
                (fun entry =>
                   is_number (snd entry)
                   && negb (String.eqb (fst entry) "request_speed"))
                (map_to_list product_response) =
              [("WP Fusion", JNum 1000); ("totals", JNum 1500)])
      by (vm_compute; reflexivity).
    rewrite Hfields in Hfilter.
    destruct results as [| [name1 value1] [| [name2 value2] [| stat rest]]];
      try discriminate Hfilter.
    injection Hfilter as -> -> -> ->. reflexivity.
Defined.

(* ===================================================================== *)
(** * The handlers on any outcome of the lookup *)
(* ===================================================================== *)

Lemma bind_Throw {A B} (m : M A) (k : A -> M B) w t w' :
  m w = (Throw t, w') -> bind m k w = (Throw t, w').
Proof. intros Hm. unfold bind. by rewrite Hm. Qed.

Lemma given_num_nonzero n : n <> 0 -> given_num (Some n) = true.
Proof. intros Hn. simpl. by destruct (Z.eqb_spec n 0). Qed.

Lemma given_str_nonempty s : s <> "" -> given_str (Some s) = true.
Proof. intros Hs. simpl. by destruct (String.eqb_spec s ""). Qed.

(** When both identifying parameters are given, the identifier wins: the
    purchase key, or the email, is not looked at. *)
Theorem identifier_takes_precedence `{JsRuntime}
    (edd : EDDClientConfig) (id : Z) (other : option string) (w : World) :
  id <> 0 ->
  edd_get_sale edd (Some id) other w = edd_get_sale edd (Some id) None w
  /\ edd_get_customer edd (Some id) other w =
       edd_get_customer edd (Some id) None w.
Proof.
  intros Hid. unfold edd_get_sale, edd_get_customer.
  rewrite (given_num_nonzero id Hid). split; reflexivity.
Qed.

Lemma identifier_takes_precedence_witness :
  edd_get_sale (H := sample_runtime) test_config (Some 7) (Some "abc123")
    (fresh (always (ok_json (JObj ∅)))) =
    edd_get_sale (H := sample_runtime) test_config (Some 7) None
      (fresh (always (ok_json (JObj ∅))))
  /\ edd_get_customer (H := sample_runtime) test_config (Some 7)
       (Some "abc123") (fresh (always (ok_json (JObj ∅)))) =
       edd_get_customer (H := sample_runtime) test_config (Some 7) None
         (fresh (always (ok_json (JObj ∅)))).
Proof.
  apply (identifier_takes_precedence (H := sample_runtime) test_config 7
           (Some "abc123") (fresh (always (ok_json (JObj ∅))))).
  discriminate.
Defined.

(** The handlers catch nothing and retry nothing: when the request of the
    lookup throws, the handler throws the same, in the same world. *)
Theorem handlers_propagate_failures `{JsRuntime}
    (edd : EDDClientConfig) (w w' : World) (t : Thrown) :
  (forall saleId purchaseKey,
      saleId <> 0 ->
      request (buildUrl edd "sales/" [("id", PNum saleId)])
        default_retries w = (Throw t, w') ->
      edd_get_sale edd (Some saleId) purchaseKey w = (Throw t, w'))
  /\ (forall saleId purchaseKey,
        given_num saleId = false -> purchaseKey <> "" ->
        request (buildUrl edd "sales/" [("key", PStr purchaseKey)])
          default_retries w = (Throw t, w') ->
        edd_get_sale edd saleId (Some purchaseKey) w = (Throw t, w'))
  /\ (forall customerId email,
        customerId <> 0 ->
        request (buildUrl edd "customers/" [("customer", PNum customerId)])
          default_retries w = (Throw t, w') ->
        edd_get_customer edd (Some customerId) email w = (Throw t, w'))
  /\ (forall customerId email,
        given_num customerId = false -> email <> "" ->
        request (buildUrl edd "customers/" [("email", PStr email)])
          default_retries w = (Throw t, w') ->
        edd_get_customer edd customerId (Some email) w = (Throw t, w'))
  /\ (forall productId,
        request
          (buildPublicUrl edd "products/"
             (products_entries
                {| p_number := None; p_product := Some productId |}))
          default_retries w = (Throw t, w') ->
        edd_get_product edd productId w = (Throw t, w'))
  /\ (forall discountId,
        request (buildUrl edd "discounts/" [("discount", PNum discountId)])
          default_retries w = (Throw t, w') ->
        edd_get_discount edd discountId w = (Throw t, w')).
Proof.
  repeat split.
  - intros saleId purchaseKey Hid Hthrow. unfold edd_get_sale.
    rewrite (given_num_nonzero _ Hid). cbn [negb andb default from_option].
    apply bind_Throw. unfold getSaleById. by apply bind_Throw.
  - intros saleId purchaseKey Hid Hkey Hthrow. unfold edd_get_sale.
    rewrite Hid, (given_str_nonempty _ Hkey).
    cbn [negb andb default from_option].
    apply bind_Throw. unfold getSaleByKey. by apply bind_Throw.
  - intros customerId email Hid Hthrow. unfold edd_get_customer.
    rewrite (given_num_nonzero _ Hid). cbn [negb andb default from_option].
    apply bind_Throw. unfold getCustomerById. by apply bind_Throw.
  - intros customerId email Hid Hemail Hthrow. unfold edd_get_customer.
    rewrite Hid, (given_str_nonempty _ Hemail).
    cbn [negb andb default from_option].
    apply bind_Throw. unfold getCustomerByEmail. by apply bind_Throw.
  - intros productId Hthrow. unfold edd_get_product.
    apply bind_Throw. unfold getProduct. apply bind_Throw.
    unfold listProducts. by apply bind_Throw.
  - intros discountId Hthrow. unfold edd_get_discount.
    apply bind_Throw. unfold getDiscount. by apply bind_Throw.
Qed.

Lemma handlers_propagate_failures_witness :
  edd_get_sale (H := sample_runtime) test_config (Some 123) None
    (fresh (always (Resolved (mkResponse 401 "Unauthorized" (inr (JObj ∅)))))) =
    (Throw (ThrownError (Error "HTTP 401: Unauthorized")),
     mkWorld (always (Resolved (mkResponse 401 "Unauthorized" (inr (JObj ∅)))))
       (repeat "https://example.com/edd-api/sales/?key=test-key&token=test-token&id=123" 3)
       [1000; 2000]
       [Fetched "https://example.com/edd-api/sales/?key=test-key&token=test-token&id=123";
        Waited 1000;
        Fetched "https://example.com/edd-api/sales/?key=test-key&token=test-token&id=123";
        Waited 2000;
        Fetched "https://example.com/edd-api/sales/?key=test-key&token=test-token&id=123"]).
Proof.
  refine (proj1 (handlers_propagate_failures (H := sample_runtime) test_config
                   _ _ _) 123 None _ _);
    [discriminate | reflexivity].
Defined.

(** [edd_get_product] and [edd_get_discount]: after a successful response
    with an empty array (for discounts, also with no array) the content
    is the message that names the identifier in decimal, and after one
    that starts with a truthy record the content is that record
    serialized. *)
Theorem product_and_discount_handlers `{JsRuntime}
    (edd : EDDClientConfig) (id : Z) (w w' : World) (response : JsValue) :
  (request
     (buildPublicUrl edd "products/"
        (products_entries {| p_number := None; p_product := Some id |}))
     default_retries w = (Return response, w') ->
   (js_get response "products" = inr (JArr []) ->
    edd_get_product edd id w =
      (Return (text_result ("Product " +:+ Z_toString id +:+ " not found")),
       w'))
   /\ (forall first others,
         js_get response "products" = inr (JArr (first :: others)) ->
         truthy first = true ->
         edd_get_product edd id w =
           (Return (text_result (JSON_stringify first)), w')))
  /\ (request (buildUrl edd "discounts/" [("discount", PNum id)])
        default_retries w = (Return response, w') ->
      (js_get response "discounts" = inr (JArr [])
       \/ js_get response "discounts" = inr JUndefined ->
       edd_get_discount edd id w =
         (Return (text_result ("Discount " +:+ Z_toString id +:+ " not found")),
          w'))
      /\ (forall first others,
            js_get response "discounts" = inr (JArr (first :: others)) ->
            truthy first = true ->
            edd_get_discount edd id w =
              (Return (text_result (JSON_stringify first)), w'))).
Proof.
  split; intros Hrequest; split.
  - intros Hfield. unfold edd_get_product, getProduct, listProducts.
    unfold bind at 1 2. after_request Hrequest. by rewrite Hfield.
  - intros first others Hfield Htruthy.
    unfold edd_get_product, getProduct, listProducts.
    unfold bind at 1 2. after_request Hrequest. rewrite Hfield.
    unfold bind, ret, js_or. simpl. by rewrite Htruthy, Htruthy.
  - intros [Hfield | Hfield]; unfold edd_get_discount, getDiscount;
      unfold bind at 1; after_request Hrequest; by rewrite Hfield.
  - intros first others Hfield Htruthy. unfold edd_get_discount, getDiscount.
    unfold bind at 1. after_request Hrequest. rewrite Hfield.
    unfold bind, ret, js_or. simpl. by rewrite Htruthy, Htruthy.
Qed.

Lemma product_and_discount_handlers_witness :
  edd_get_product (H := sample_runtime) test_config 9999
    (fresh (always (ok_json (JObj {[ "products" := JArr [] ]})))) =
    (Return (text_result "Product 9999 not found"),
     mkWorld (always (ok_json (JObj {[ "products" := JArr [] ]})))
       ["https://example.com/edd-api/products/?product=9999"] []
         [Fetched "https://example.com/edd-api/products/?product=9999"])
  /\ edd_get_discount (H := sample_runtime) test_config 12
       (fresh (always (ok_json (JObj ∅)))) =
       (Return (text_result "Discount 12 not found"),
        mkWorld (always (ok_json (JObj ∅)))
          ["https://example.com/edd-api/discounts/?key=test-key&token=test-token&discount=12"]
          []
          [Fetched "https://example.com/edd-api/discounts/?key=test-key&token=test-token&discount=12"]).
Proof.
  split.
  - refine (proj1 (proj1 (product_and_discount_handlers (H := sample_runtime)
                            test_config 9999 _ _
                            (JObj {[ "products" := JArr [] ]})) _) _);
      reflexivity.
  - refine (proj1 (proj2 (product_and_discount_handlers (H := sample_runtime)
                            test_config 12 _ _ (JObj ∅)) _) _);
      [reflexivity | right; reflexivity].
Defined.

(** [edd_get_sale] and [edd_get_customer]: after a successful response
    whose array starts with a truthy record, the content is that record
    serialized, by whichever parameter the lookup went. *)
Theorem alternate_key_handlers_found `{JsRuntime}
    (edd : EDDClientConfig) (w w' : World) (response first : JsValue)
    (others : list JsValue) :
  truthy first = true ->
  (forall saleId purchaseKey,
      saleId <> 0 ->
      request (buildUrl edd "sales/" [("id", PNum saleId)])
        default_retries w = (Return response, w') ->
      js_get response "sales" = inr (JArr (first :: others)) ->
      edd_get_sale edd (Some saleId) purchaseKey w =
        (Return (text_result (JSON_stringify first)), w'))
  /\ (forall saleId purchaseKey,
        given_num saleId = false -> purchaseKey <> "" ->
        request (buildUrl edd "sales/" [("key", PStr purchaseKey)])
          default_retries w = (Return response, w') ->
        js_get response "sales" = inr (JArr (first :: others)) ->
        edd_get_sale edd saleId (Some purchaseKey) w =
          (Return (text_result (JSON_stringify first)), w'))
  /\ (forall customerId email,
        customerId <> 0 ->
        request (buildUrl edd "customers/" [("customer", PNum customerId)])
          default_retries w = (Return response, w') ->
        js_get response "customers" = inr (JArr (first :: others)) ->
        edd_get_customer edd (Some customerId) email w =
          (Return (text_result (JSON_stringify first)), w'))
  /\ (forall customerId email,
        given_num customerId = false -> email <> "" ->
        request (buildUrl edd "customers/" [("email", PStr email)])
          default_retries w = (Return response, w') ->
        js_get response "customers" = inr (JArr (first :: others)) ->
        edd_get_customer edd customerId (Some email) w =
          (Return (text_result (JSON_stringify first)), w')).
Proof.
  intros Htruthy. repeat split.
  - intros saleId purchaseKey Hid Hrequest Hfield. unfold edd_get_sale.
    rewrite (given_num_nonzero _ Hid). cbn [negb andb default from_option].
    unfold getSaleById. unfold bind at 1. after_request Hrequest.
    rewrite Hfield. unfold bind, ret, js_or. simpl.
    by rewrite Htruthy, Htruthy.
  - intros saleId purchaseKey Hid Hkey Hrequest Hfield. unfold edd_get_sale.
    rewrite Hid, (given_str_nonempty _ Hkey).
    cbn [negb andb default from_option].
    unfold getSaleByKey. unfold bind at 1. after_request Hrequest.
    rewrite Hfield. unfold bind, ret, js_or. simpl.
    by rewrite Htruthy, Htruthy.
  - intros customerId email Hid Hrequest Hfield. unfold edd_get_customer.
    rewrite (given_num_nonzero _ Hid). cbn [negb andb default from_option].
    unfold getCustomerById. unfold bind at 1. after_request Hrequest.
    rewrite Hfield. unfold bind, ret, js_or. simpl.
    by rewrite Htruthy, Htruthy.
  - intros customerId email Hid Hemail Hrequest Hfield.
    unfold edd_get_customer.
    rewrite Hid, (given_str_nonempty _ Hemail).
    cbn [negb andb default from_option].
    unfold getCustomerByEmail. unfold bind at 1. after_request Hrequest.
    rewrite Hfield. unfold bind, ret, js_or. simpl.
    by rewrite Htruthy, Htruthy.
Qed.

Lemma alternate_key_handlers_found_witness :
  edd_get_customer (H := sample_runtime) test_config None
    (Some "found@example.com")
    (fresh (always (ok_json (JObj {[ "customers" := JArr [JObj ∅] ]})))) =
    (Return (text_result (JSON_stringify (JsRuntime := sample_runtime) (JObj ∅))),
     mkWorld (always (ok_json (JObj {[ "customers" := JArr [JObj ∅] ]})))
       ["https://example.com/edd-api/customers/?key=test-key&token=test-token&email=found%40example.com"]
       []
       [Fetched "https://example.com/edd-api/customers/?key=test-key&token=test-token&email=found%40example.com"]).
Proof.
  refine (proj2 (proj2 (proj2
    (alternate_key_handlers_found (H := sample_runtime) test_config _ _
       (JObj {[ "customers" := JArr [JObj ∅] ]}) (JObj ∅) [] _)))
    None "found@example.com" _ _ _ _);
    first [reflexivity | discriminate].
Defined.
